(** * PersonalEphemeris: a shallow embedding of [ephemeris.py]

    The script is sequential glue around the PyEphem library: it loads a
    JSON configuration, resolves the observer, and prints fixed-width
    tables.  The embedding follows the script statement by statement.

    Conventions of the model:
    - Python [float] values (angles in radians, dates in days) are exact
      rationals [Q]; rounding of binary64 arithmetic, NaN and infinities
      are outside the model.  [math.pi] is the exact value of the double
      the script uses.
    - Python [int] is [Z]; [str] is [string].
    - PyEphem is a black box: every call into it is an operation of the
      class [Ephem] that may read and update the library's object store
      and may raise.
    - [print] appends one line to the output held in the program state. *)

From Stdlib Require Import ZArith QArith Qabs Qround Ascii List Sorted Lia Lqa
  DecimalString.
From stdpp Require Import gmap strings.

Local Open Scope Z_scope.
Set Warnings "-register-all".

(** ** Python numbers *)

(** [math.pi]: the double 0x1.921fb54442d18p+1. *)
Definition math_pi : Q := 884279719003555 # 281474976710656.

(** [int(x)] on a float: truncation toward zero. *)
Definition py_int (x : Q) : Z := Z.quot (Qnum x) (Z.pos (Qden x)).

(** The float of an [int]. *)
Definition py_float (z : Z) : Q := inject_Z z.

(** Comparison of floats, as booleans. *)
Definition Qltb (x y : Q) : bool := negb (Qle_bool y x).

(** ** Python string formatting *)

Module Fmt.

Definition nl : string := String (ascii_of_nat 10) EmptyString.

Fixpoint replicate (n : nat) (c : ascii) : string :=
  match n with
  | O => EmptyString
  | S k => String c (replicate k c)
  end.

(** [s.rjust(w, fill)] and [s.ljust(w, fill)]. *)
Definition rjust (w : nat) (fill : ascii) (s : string) : string :=
  replicate (w - String.length s) fill +:+ s.

Definition ljust (w : nat) (fill : ascii) (s : string) : string :=
  s +:+ replicate (w - String.length s) fill.

(** Decimal digits of a natural number, ["0"] for zero. *)
Definition digits (n : N) : string := NilZero.string_of_uint (N.to_uint n).

(** [str(z)] for an [int]. *)
Definition str_int (z : Z) : string :=
  if z <? 0 then "-" +:+ digits (Z.abs_N z) else digits (Z.abs_N z).

(** ["{:wd}"]: right-aligned in [w] columns, padded with spaces. *)
Definition d (w : nat) (z : Z) : string := rjust w " " (str_int z).

(** ["{:0wd}"]: zero padding goes between the sign and the digits. *)
Definition d0 (w : nat) (z : Z) : string :=
  if z <? 0 then "-" +:+ rjust (w - 1) "0" (digits (Z.abs_N z))
  else rjust w "0" (digits (Z.abs_N z)).

(** Nearest integer to a non-negative rational, ties to even: the
    rounding of Python's fixed-point float formatting. *)
Definition round_half_even (x : Q) : Z :=
  let n := Qnum x in
  let m := Z.pos (Qden x) in
  let fl := n / m in
  match 2 * (n mod m) ?= m with
  | Lt => fl
  | Gt => fl + 1
  | Eq => if Z.even fl then fl else fl + 1
  end.

(** Digits of [|x|] with [prec] decimals, without sign. *)
Definition fixed_abs (prec : nat) (x : Q) : string :=
  let p := 10 ^ Z.of_nat prec in
  let scaled := round_half_even (Qabs x * inject_Z p) in
  let ip := digits (Z.to_N (scaled / p)) in
  match prec with
  | O => ip
  | _ => ip +:+ "." +:+ rjust prec "0" (digits (Z.to_N (scaled mod p)))
  end.

(** ["{:w.pf}"]: fixed point, right-aligned with spaces ([w = 0] for
    no minimum width). *)
Definition f (w prec : nat) (x : Q) : string :=
  rjust w " " ((if Qltb x 0 then "-" else "") +:+ fixed_abs prec x).

(** ["{:0w.pf}"]: fixed point, zero padded after the sign. *)
Definition f0 (w prec : nat) (x : Q) : string :=
  if Qltb x 0 then "-" +:+ rjust (w - 1) "0" (fixed_abs prec x)
  else rjust w "0" (fixed_abs prec x).

(** ["{:<w.ps}"] with a fill character: truncate to [p] characters,
    then left-justify in [w] columns. *)
Definition s_fill (fill : ascii) (w p : nat) (s : string) : string :=
  ljust w fill (String.substring 0 p s).

(** ["{:ws}"]: left-justified with spaces, never truncated. *)
Definition s (w : nat) (x : string) : string := ljust w " " x.

End Fmt.

(** ** Dates and times handed out by the library *)

(** A Python [datetime], as produced by [ephem.localtime]. *)
Record datetime := {
  year : Z; month : Z; day : Z;
  hour : Z; minute : Z; second : Z
}.

(** The result of [Date.tuple()]: the seconds are a float. *)
Record date_tuple := {
  t_year : Z; t_month : Z; t_day : Z;
  t_hour : Z; t_minute : Z; t_second : Q
}.

(** ** The formatting functions of the script *)

(** [fmt_ra]: right ascension as hours and minutes. *)
Definition fmt_ra (angle : Q) : string :=
  let hf := (12 * angle / math_pi)%Q in
  let h := py_int hf in
  let m := ((hf - py_float h) * 60)%Q in
  Fmt.d 2 h +:+ "h" +:+ Fmt.f 0 0 m +:+ "m".

Definition fmt_fulldatetime (dttm : datetime) : string :=
  Fmt.d0 2 (month dttm) +:+ "/" +:+ Fmt.d0 2 (day dttm) +:+ "/" +:+
  Fmt.d0 2 (year dttm) +:+ " " +:+ Fmt.d0 2 (hour dttm) +:+ ":" +:+
  Fmt.d0 2 (minute dttm) +:+ ":" +:+ Fmt.d0 2 (second dttm).

Definition fmt_datetime (dttm : datetime) : string :=
  Fmt.d0 2 (month dttm) +:+ "/" +:+ Fmt.d0 2 (day dttm) +:+ " " +:+
  Fmt.d0 2 (hour dttm) +:+ ":" +:+ Fmt.d0 2 (minute dttm).

(** The two integers [fmt_angle] prints: degrees and minutes. *)
Definition angle_deg (a : Q) : Z := py_int (180 * a / math_pi)%Q.

Definition angle_min (a : Q) : Z :=
  let a' := (180 * a / math_pi)%Q in
  let deg := py_int a' in
  py_int ((a' - py_float deg) * 60 + (1 # 2))%Q.

(** [fmt_angle]: an angle in radians as [ddd:mm]. *)
Definition fmt_angle (a : Q) : string :=
  let a := (180 * a / math_pi)%Q in
  let deg := py_int a in
  let min := py_int ((a - py_float deg) * 60 + (1 # 2))%Q in
  Fmt.d 3 deg +:+ ":" +:+ Fmt.d0 2 min.

(** The format strings of [fmt_date] and [fmt_shortdate], on the tuple
    of a date. *)
Definition fmt_date_tuple (d : date_tuple) : string :=
  Fmt.d0 2 (t_month d) +:+ "/" +:+ Fmt.d0 2 (t_day d) +:+ "/" +:+
  Fmt.d0 2 (t_year d) +:+ " " +:+ Fmt.d0 2 (t_hour d) +:+ ":" +:+
  Fmt.d0 2 (t_minute d) +:+ ":" +:+ Fmt.f0 4 1 (t_second d).

Definition fmt_shortdate_tuple (d : date_tuple) : string :=
  Fmt.d0 2 (t_month d) +:+ "/" +:+ Fmt.d0 2 (t_day d) +:+ " " +:+
  Fmt.d0 2 (t_hour d) +:+ ":" +:+ Fmt.d0 2 (t_minute d).

(** ** Decoded JSON values *)

(** What [json.load] returns.  An object is the list of its keys, each
    once, with their values. *)
Inductive json :=
| JNull
| JBool (b : bool)
| JInt (z : Z)
| JFloat (x : Q)
| JStr (s : string)
| JArr (items : list json)
| JObj (fields : list (string * json)).

(** ** Exceptions and outcomes *)

(** The exception classes the script distinguishes.  [CircumpolarError]
    stands for [ephem.CircumpolarError] and its subclasses, named by
    [cls]; [OtherError] is any other class ([ValueError], [TypeError],
    ...). *)
Inductive exn :=
| KeyError (key : string)
| CircumpolarError (cls : string)
| SystemExit (code : Z)
| OtherError (cls : string) (msg : string).

Definition is_KeyError (e : exn) : bool :=
  match e with KeyError _ => true | _ => false end.

Definition is_CircumpolarError (e : exn) : bool :=
  match e with CircumpolarError _ => true | _ => false end.

(** The outcome of a computation: a value, a raised exception, or a
    run that leaves the input domain of the model (see
    [city_key]). *)
Inductive outcome (A : Type) :=
| Ok (a : A)
| Raise (e : exn)
| Unmodelled.
Arguments Ok {A} a.
Arguments Raise {A} e.
Arguments Unmodelled {A}.

(** ** Python operations on JSON values *)

Fixpoint assoc (k : string) (kvs : list (string * json)) : option json :=
  match kvs with
  | [] => None
  | (k', v) :: rest => if String.eqb k k' then Some v else assoc k rest
  end.

(** [v[key]] for a string key. *)
Definition py_getitem (v : json) (key : string) : outcome json :=
  match v with
  | JObj kvs =>
      match assoc key kvs with
      | Some x => Ok x
      | None => Raise (KeyError key)
      end
  | JArr _ => Raise (OtherError "TypeError" "list indices must be integers or slices, not str")
  | JStr _ => Raise (OtherError "TypeError" "string indices must be integers")
  | _ => Raise (OtherError "TypeError" "object is not subscriptable")
  end.

Fixpoint chars (s : string) : list json :=
  match s with
  | EmptyString => []
  | String c rest => JStr (String c EmptyString) :: chars rest
  end.

(** The items a [for] loop over [v] visits. *)
Definition py_iter (v : json) : outcome (list json) :=
  match v with
  | JArr items => Ok items
  | JObj kvs => Ok (map (fun kv => JStr (fst kv)) kvs)
  | JStr s => Ok (chars s)
  | _ => Raise (OtherError "TypeError" "object is not iterable")
  end.

(** Truth value of [v] in an [if]. *)
Definition py_truthy (v : json) : bool :=
  match v with
  | JNull => false
  | JBool b => b
  | JInt z => negb (z =? 0)
  | JFloat x => negb (Qeq_bool x 0)
  | JStr s => negb (String.eqb s "")
  | JArr items => match items with [] => false | _ => true end
  | JObj kvs => match kvs with [] => false | _ => true end
  end.

(** City names are dictionary keys and format arguments as strings
    (configuration schema: [name] and [default_city] are strings); a
    run that uses another JSON value as a city name is not modelled. *)
Definition city_key (v : json) : outcome string :=
  match v with
  | JStr s => Ok s
  | _ => Unmodelled
  end.

(** ** The library interface *)

(** A call into the library: it runs on the library's object store,
    returns a value or raises, and leaves an updated store. *)
Definition call_t (S A : Type) : Type := S -> (exn + A) * S.

(** PyEphem as the script uses it.  [Observer] and [Body] are
    references to library objects living in [store]; attribute reads and
    writes are calls as well.  [py_repr] is Python's [repr] of floats and
    containers, needed only by [str] on configuration values. *)
Class Ephem := {
  store : Type;
  Observer : Type;
  Body : Type;
  py_repr : json -> string;
  (* observers *)
  ephem_city : string -> call_t store Observer;
  ephem_Observer : call_t store Observer;
  set_name : Observer -> string -> call_t store unit;
  set_lat : Observer -> string -> call_t store unit;
  set_lon : Observer -> string -> call_t store unit;
  set_elevation : Observer -> json -> call_t store unit;
  compute_pressure : Observer -> call_t store unit;
  set_date : Observer -> Q -> call_t store unit;
  get_date : Observer -> call_t store Q;
  get_name : Observer -> call_t store string;
  (* time *)
  ephem_Date : string -> call_t store Q;
  ephem_now : Q -> call_t store Q;
  ephem_localtime : Q -> call_t store datetime;
  date_tuple_of : Q -> call_t store date_tuple;
  (* bodies *)
  ephem_Sun : Observer -> call_t store Body;
  ephem_Moon : Observer -> call_t store Body;
  ephem_planet : string -> call_t store Body;
  ephem_readdb : json -> call_t store Body;
  ephem_readtle : json -> json -> json -> call_t store Body;
  body_compute : Body -> Observer -> call_t store unit;
  body_name : Body -> call_t store string;
  body_alt : Body -> call_t store Q;
  body_az : Body -> call_t store Q;
  body_mag : Body -> call_t store Q;
  body_ra : Body -> call_t store Q;
  body_dec : Body -> call_t store Q;
  moon_phase : Body -> call_t store Q;
  (* rise and set *)
  previous_rising : Observer -> Body -> call_t store Q;
  next_rising : Observer -> Body -> call_t store Q;
  next_setting : Observer -> Body -> call_t store Q;
  next_pass : Observer -> Body -> call_t store (Q * Q * Q * Q * Q * Q);
  (* lunar phases *)
  previous_new_moon : Q -> call_t store Q;
  next_new_moon : Q -> call_t store Q;
  next_first_quarter_moon : Q -> call_t store Q;
  next_full_moon : Q -> call_t store Q;
  next_last_quarter_moon : Q -> call_t store Q;
  previous_first_quarter_moon : Q -> call_t store Q;
  previous_full_moon : Q -> call_t store Q;
  previous_last_quarter_moon : Q -> call_t store Q;
  (* geometry *)
  ephem_separation : Q * Q -> Q * Q -> call_t store Q
}.

(** ** Program state and the monad of the script *)

Section Monad.

Context `{E : Ephem}.

(** The extra-city table: name to (latitude, longitude, elevation). *)
Abbreviation city_table := (gmap string (string * string * json)).

(** The library's objects, the lines printed so far, and the two module
    globals that are updated while the configuration is read. *)
Record state := {
  world : store;
  out : list string;
  mycity_data : city_table;
  default_city : json
}.

Definition M (A : Type) : Type := state -> outcome A * state.

Definition ret {A} (a : A) : M A := fun st => (Ok a, st).

Definition bind {A B} (c : M A) (k : A -> M B) : M B :=
  fun st =>
    match c st with
    | (Ok a, st') => k a st'
    | (Raise e, st') => (Raise e, st')
    | (Unmodelled, st') => (Unmodelled, st')
    end.

Definition raise {A} (e : exn) : M A := fun st => (Raise e, st).

Definition lift {A} (o : outcome A) : M A := fun st => (o, st).

Definition with_world (st : state) (w : store) : state :=
  {| world := w; out := out st;
     mycity_data := mycity_data st;
     default_city := default_city st |}.

Definition with_line (st : state) (line : string) : state :=
  {| world := world st; out := out st ++ [line];
     mycity_data := mycity_data st;
     default_city := default_city st |}.

(** A library call: only the store changes. *)
Definition call {A} (op : call_t store A) : M A :=
  fun st =>
    let (r, w) := op (world st) in
    match r with
    | inr a => (Ok a, with_world st w)
    | inl e => (Raise e, with_world st w)
    end.

(** [print(line)]. *)
Definition print (line : string) : M unit :=
  fun st => (Ok tt, with_line st line).

(** [try: c  except <classes>: handler]; the effects of [c] up to the
    exception stay. *)
Definition try_except {A} (c : M A) (handles : exn -> bool)
    (handler : M A) : M A :=
  fun st =>
    match c st with
    | (Raise e, st') => if handles e then handler st' else (Raise e, st')
    | r => r
    end.

(** A bare [except:] catches every exception. *)
Definition any_exn (e : exn) : bool := true.

End Monad.

Notation "'let*' x := c 'in' k" := (bind c (fun x => k))
  (at level 10, x name, c at level 100, k at level 200).
Notation "c ;; k" := (bind c (fun _ => k))
  (at level 100, k at level 200, right associativity).

(** ** The script *)

Section Script.

Context `{E : Ephem}.

Abbreviation city_table := (gmap string (string * string * json)).

(** [str(v)] on a configuration value. *)
Definition py_str (v : json) : string :=
  match v with
  | JStr s => s
  | JInt z => Fmt.str_int z
  | JBool true => "True"
  | JBool false => "False"
  | JNull => "None"
  | _ => py_repr v
  end.

(** Loops: [for x in items: body], and the same with a local variable
    that the body updates. *)
Fixpoint for_each {A} (items : list A) (body : A -> M unit) : M unit :=
  match items with
  | [] => ret tt
  | x :: rest => body x ;; for_each rest body
  end.

Fixpoint for_fold {A B} (items : list A) (acc : B) (body : A -> B -> M B)
    : M B :=
  match items with
  | [] => ret acc
  | x :: rest => let* acc' := body x acc in for_fold rest acc' body
  end.

(** Module globals. *)
Definition get_mycity_data : M city_table :=
  fun st => (Ok (mycity_data st), st).

Definition update_mycity_data (name : string) (data : string * string * json)
    : M unit :=
  fun st =>
    (Ok tt, {| world := world st; out := out st;
               mycity_data := <[name := data]> (mycity_data st);
               default_city := default_city st |}).

Definition get_default_city : M json :=
  fun st => (Ok (default_city st), st).

Definition set_default_city (city : json) : M unit :=
  fun st =>
    (Ok tt, {| world := world st; out := out st;
               mycity_data := mycity_data st;
               default_city := city |}).

(** [additional_city] (lines 36-45). *)
Definition additional_city (name : string) : M Observer :=
  let* data :=
    try_except
      (let* table := get_mycity_data in
       match table !! name with
       | Some data => ret data
       | None => raise (KeyError name)
       end)
      is_KeyError
      (raise (KeyError ("Unknown city: " +:+ py_repr (JStr name)))) in
  let* o := call ephem_Observer in
  call (set_name o name) ;;
  let '(lat, lon, elevation) := data in
  call (set_lat o lat) ;;
  call (set_lon o lon) ;;
  call (set_elevation o elevation) ;;
  call (compute_pressure o) ;;
  ret o.

(** The two rows [print_visinfo] can print. *)
Definition visible_row (name : string) (alt az : Q) (r_time s_time : string)
    (mag ra dec : Q) : string :=
  Fmt.s_fill "." 19 19 name +:+ "| Yes | " +:+ fmt_angle alt +:+ " | " +:+
  fmt_angle az +:+ " | " +:+ r_time +:+ " | " +:+ s_time +:+ " | " +:+
  Fmt.f 5 1 mag +:+ " | " +:+ fmt_ra ra +:+ " | " +:+ fmt_angle dec +:+ " |".

Definition hidden_row (name r_time s_time : string) : string :=
  Fmt.s_fill "." 19 19 name +:+ "| No  |   ---  |   ---  | " +:+ r_time +:+
  " | " +:+ s_time +:+ " |  ---  |  ----  |  ----  |".

(** Lines 90-94: the rise field of a body that is up. *)
Definition rise_field (body : Body) (location : Observer) : M string :=
  try_except
    (let* t := call (previous_rising location body) in
     let* body_rise := call (ephem_localtime t) in
     ret (fmt_datetime body_rise))
    is_CircumpolarError
    (ret "already up ").

(** Lines 97-101: the set field of a body that is up. *)
Definition set_field (body : Body) (location : Observer) : M string :=
  try_except
    (let* t := call (next_setting location body) in
     let* body_set := call (ephem_localtime t) in
     ret (fmt_datetime body_set))
    is_CircumpolarError
    (ret "doesn't set").

(** Lines 102-105: recompute and print the row of a body that is up. *)
Definition print_visible (body : Body) (location : Observer)
    (r_time s_time : string) : M unit :=
  call (body_compute body location) ;;
  let* name := call (body_name body) in
  let* alt := call (body_alt body) in
  let* az := call (body_az body) in
  let* mag := call (body_mag body) in
  let* ra := call (body_ra body) in
  let* dec := call (body_dec body) in
  print (visible_row name alt az r_time s_time mag ra dec).

(** Lines 107-114: the branch of a body that is not up. *)
Definition print_hidden (body : Body) (location : Observer) : M unit :=
  let* t := call (next_rising location body) in
  let* body_rise := call (ephem_localtime t) in
  let* t := call (next_setting location body) in
  let* body_set := call (ephem_localtime t) in
  call (body_compute body location) ;;
  let r_time := fmt_datetime body_rise in
  let s_time := fmt_datetime body_set in
  let* name := call (body_name body) in
  print (hidden_row name r_time s_time).

(** [print_visinfo] (lines 85-114). *)
Definition print_visinfo (body : Body) (location : Observer) : M unit :=
  call (body_compute body location) ;;
  let* alt := call (body_alt body) in
  if Qltb 0 alt then
    let* r_time := rise_field body location in
    let* s_time := set_field body location in
    print_visible body location r_time s_time
  else
    print_hidden body location.

(** Lines 128-137: the extra cities of the configuration. *)
Definition load_cities (config_data : json) : M unit :=
  try_except
    (let* objects := lift (py_getitem config_data "cities") in
     let* items := lift (py_iter objects) in
     for_each items (fun i =>
       let* name := lift (py_getitem i "name") in
       let* latitude := lift (py_getitem i "latitude") in
       let* longitude := lift (py_getitem i "longitude") in
       let* elevation := lift (py_getitem i "elevation") in
       let* key := lift (city_key name) in
       update_mycity_data key (py_str latitude, py_str longitude, elevation)))
    is_KeyError
    (ret tt).

(** Lines 140-145: the default city of the configuration. *)
Definition load_default_city (config_data : json) : M unit :=
  try_except
    (let* city := lift (py_getitem config_data "default_city") in
     set_default_city city)
    is_KeyError
    (ret tt).

(** Command line: [args.city], with the default of line 157. *)
Definition args_city (cli_city : option string) : M string :=
  match cli_city with
  | Some c => ret c
  | None => let* city := get_default_city in lift (city_key city)
  end.

Definition not_found_message (city : string) : string :=
  "City '" +:+ city +:+ "' not found in global or local list".

(** Lines 164-171: the observer's site. *)
Definition resolve_site (city : string) : M Observer :=
  try_except
    (call (ephem_city city))
    is_KeyError
    (try_except
       (additional_city city)
       any_exn
       (print (not_found_message city) ;; raise (SystemExit 0))).

(** Lines 181-184: the observation instant; [if args.date] is false for
    a missing or an empty argument.  [clock] is the reading of the wall
    clock that [ephem.now()] would take. *)
Definition observation_time (cli_date : option string) (clock : Q) : M Q :=
  match cli_date with
  | Some d =>
      if py_truthy (JStr d) then call (ephem_Date d)
      else call (ephem_now clock)
  | None => call (ephem_now clock)
  end.

Definition table_header : string :=
  "       BODY        | VIS |   ALT  |   AZ   |    RISE     |     SET     |  MAG  |   RA   |   DEC  |".

Definition comet_header : string :=
  "      COMET        | VIS |   ALT  |   AZ   |    RISE     |     SET     |  MAG  |   RA   |   DEC  |".

Definition table_rule : string :=
  "-------------------+-----+--------+--------+-------------+-------------+-------+--------+--------+".

(** [fmt_date] and [fmt_shortdate] (lines 72-81): [date.tuple()], then
    the formatting of the tuple. *)
Definition fmt_date (date : Q) : M string :=
  let* d := call (date_tuple_of date) in ret (fmt_date_tuple d).

Definition fmt_shortdate (date : Q) : M string :=
  let* d := call (date_tuple_of date) in ret (fmt_shortdate_tuple d).

(** Float division raises on a zero divisor. *)
Definition py_div (x y : Q) : outcome Q :=
  if Qeq_bool y 0 then Raise (OtherError "ZeroDivisionError" "float division by zero")
  else Ok (x / y)%Q.

(** Line 216. *)
Definition lunation_of (now prev_new next_new : Q) : outcome Q :=
  py_div (now - prev_new)%Q (next_new - prev_new)%Q.

(** Lines 220-227: the most recent phase. *)
Definition was_just (now lunation : Q) : M unit :=
  if Qltb lunation (1 # 4) then
    let* txt := (let* d := call (previous_new_moon now) in fmt_date d) in
    print ("Was just New Moon at " +:+ txt +:+ " UT")
  else if Qltb lunation (1 # 2) then
    let* txt := (let* d := call (previous_first_quarter_moon now) in fmt_date d) in
    print ("Was just First Quarter at " +:+ txt +:+ " UT")
  else if Qltb lunation (3 # 4) then
    let* txt := (let* d := call (previous_full_moon now) in fmt_date d) in
    print ("Was just Full Moon at " +:+ txt +:+ " UT")
  else
    let* txt := (let* d := call (previous_last_quarter_moon now) in fmt_date d) in
    print ("Was just Last Quarter at " +:+ txt +:+ " UT").

(** One line of lines 229-236. *)
Definition print_next_phase (label : string) (date : Q) : M unit :=
  let* ut := fmt_date date in
  let* local := call (ephem_localtime date) in
  print (label +:+ ut +:+ " UT (" +:+ fmt_fulldatetime local +:+ " Local time)").

(** Lines 208-236: the lunar phase section. *)
Definition lunar_phase_report (m : Body) (now : Q) : M unit :=
  print (Fmt.nl +:+ "*** Lunar Phase information: ***") ;;
  let* prev_new := call (previous_new_moon now) in
  let* next_new := call (next_new_moon now) in
  let* next_first := call (next_first_quarter_moon now) in
  let* next_full := call (next_full_moon now) in
  let* next_last := call (next_last_quarter_moon now) in
  let* phase := call (moon_phase m) in
  let* lunation := lift (lunation_of now prev_new next_new) in
  print ("Current lunar illumination is " +:+ Fmt.f 0 1 (phase * 100)%Q +:+
         "%, lunation is " +:+ Fmt.f 0 4 lunation) ;;
  was_just now lunation ;;
  print_next_phase "New Moon     : " next_new ;;
  print_next_phase "First Quarter: " next_first ;;
  print_next_phase "Full Moon    : " next_full ;;
  print_next_phase "Last Quarter : " next_last.

(** [bodies[i]]. *)
Definition py_index (bodies : list Body) (i : nat) : M Body :=
  match bodies !! i with
  | Some b => ret b
  | None => raise (OtherError "IndexError" "list index out of range")
  end.

(** [range(lo, hi)]. *)
Definition range (lo hi : nat) : list nat := seq lo (hi - lo).

(** Line 273: 15 degrees, in radians. *)
Definition threshold : Q := (15 * math_pi / 180)%Q.

Definition close_header : string :=
  Fmt.nl +:+ "*** Close Approaches (may not be visible) ***".

Definition pair_line (name_i name_j : string) (sep : Q) : string :=
  Fmt.s 7 name_i +:+ " to " +:+ Fmt.s 7 name_j +:+ " = " +:+ fmt_angle sep +:+
  " (dd:mm)".

(** Lines 277-282: the body of the inner loop; [count] is the number of
    pair lines printed so far. *)
Definition scan_pair (bodies : list Body) (i j : nat) (count : Z) : M Z :=
  let* bi := py_index bodies i in
  let* az_i := call (body_az bi) in
  let* bi := py_index bodies i in
  let* alt_i := call (body_alt bi) in
  let* bj := py_index bodies j in
  let* az_j := call (body_az bj) in
  let* bj := py_index bodies j in
  let* alt_j := call (body_alt bj) in
  let* sep := call (ephem_separation (az_i, alt_i) (az_j, alt_j)) in
  if Qltb sep threshold then
    (if count =? 0 then print close_header else ret tt) ;;
    let* bi := py_index bodies i in
    let* name_i := call (body_name bi) in
    let* bj := py_index bodies j in
    let* name_j := call (body_name bj) in
    print (pair_line name_i name_j sep) ;;
    ret (count + 1)
  else ret count.

(** Lines 271-282: the conjunction scan. *)
Definition conjunction_scan (bodies : list Body) : M Z :=
  let n := length bodies in
  for_fold (range 0 n) 0 (fun i count =>
    for_fold (range (i + 1) n) count (fun j count =>
      scan_pair bodies i j count)).

(** Lines 308-320: the comets of the configuration. *)
Definition comet_entry (site : Observer) (i : json) : M unit :=
  let* display := lift (py_getitem i "display") in
  if py_truthy display then
    let* comet_x := lift (py_getitem i "db_info") in
    let* comet := call (ephem_readdb comet_x) in
    print_visinfo comet site
  else ret tt.

Definition comet_report (config_data : json) (site : Observer) : M unit :=
  try_except
    (let* objects := lift (py_getitem config_data "comets") in
     print comet_header ;;
     print table_rule ;;
     let* items := lift (py_iter objects) in
     for_each items (comet_entry site) ;;
     print table_rule)
    is_KeyError
    (ret tt).

Definition pass_rule : string :=
  "-------------+--------+-------------+--------+-------------+--------+".

(** Lines 328-338: the next pass of one satellite. *)
Definition satellite_pass (site : Observer) (satellite : Body) : M unit :=
  try_except
    (let* info := call (next_pass site satellite) in
     let '(t_rise, az_rise, t_max, alt_max, t_set, az_set) := info in
     let* name := call (body_name satellite) in
     print (Fmt.nl +:+ name +:+ " visibility -- Next Pass ") ;;
     print "   RISE @        AZ      MAX ALT @      AZ        SET @        AZ" ;;
     print pass_rule ;;
     let* f0 := fmt_shortdate t_rise in
     let* f2 := fmt_shortdate t_max in
     let* f4 := fmt_shortdate t_set in
     print (" " +:+ f0 +:+ " | " +:+ fmt_angle az_rise +:+ " | " +:+ f2 +:+
            " | " +:+ fmt_angle alt_max +:+ " | " +:+ f4 +:+ " | " +:+
            fmt_angle az_set +:+ " |") ;;
     print pass_rule)
    any_exn
    (let* name := call (body_name satellite) in
     print (Fmt.nl +:+ name +:+
            " always below your horizon (check orbital elements)")).

Definition satellite_entry (site : Observer) (i : json) : M unit :=
  let* display := lift (py_getitem i "display") in
  if py_truthy display then
    let* name := lift (py_getitem i "name") in
    let* line1 := lift (py_getitem i "tle_line1") in
    let* line2 := lift (py_getitem i "tle_line2") in
    let* satellite := call (ephem_readtle name line1 line2) in
    satellite_pass site satellite
  else ret tt.

(** Lines 323-341: the satellites of the configuration. *)
Definition satellite_report (config_data : json) (site : Observer) : M unit :=
  try_except
    (let* objects := lift (py_getitem config_data "satellites") in
     let* items := lift (py_iter objects) in
     for_each items (satellite_entry site))
    is_KeyError
    (ret tt).

(** Line 266. *)
Definition m45_x : string := "M45,f|U,3:47:0,24:07:0,1.6,2000,0".

(** Lines 186-341: the report for a resolved site. *)
Definition report (config_data : json) (site : Observer) (now : Q) : M unit :=
  call (set_date site now) ;;
  let* site_name := call (get_name site) in
  let* site_date := call (get_date site) in
  let* local := call (ephem_localtime site_date) in
  print ("***** Currently at " +:+ site_name +:+ " (" +:+
         fmt_fulldatetime local +:+ ") *****") ;;
  let* s := call (ephem_Sun site) in
  let* m := call (ephem_Moon site) in
  let* s_loc := call (ephem_Sun site) in
  let* m_loc := call (ephem_Moon site) in
  print (Fmt.nl +:+ "*** Sun and Moon ***") ;;
  print table_header ;;
  print table_rule ;;
  print_visinfo s_loc site ;;
  print_visinfo m_loc site ;;
  print table_rule ;;
  lunar_phase_report m now ;;
  print (Fmt.nl +:+ "*** Planets ***") ;;
  let* mercury := call (ephem_planet "Mercury") in
  let* venus := call (ephem_planet "Venus") in
  let* mars := call (ephem_planet "Mars") in
  let* jupiter := call (ephem_planet "Jupiter") in
  let* saturn := call (ephem_planet "Saturn") in
  let* uranus := call (ephem_planet "Uranus") in
  let* neptune := call (ephem_planet "Neptune") in
  let* pluto := call (ephem_planet "Pluto") in
  print table_header ;;
  print table_rule ;;
  print_visinfo mercury site ;;
  print_visinfo venus site ;;
  print_visinfo mars site ;;
  print_visinfo jupiter site ;;
  print_visinfo saturn site ;;
  print_visinfo uranus site ;;
  print_visinfo neptune site ;;
  print_visinfo pluto site ;;
  print table_rule ;;
  let* m45 := call (ephem_readdb (JStr m45_x)) in
  call (body_compute m45 site) ;;
  let bodies := [s; m; mercury; venus; mars; jupiter; saturn; uranus;
                 neptune; pluto; m45] in
  conjunction_scan bodies ;;
  print (Fmt.nl +:+ "*** Special Objects ***") ;;
  comet_report config_data site ;;
  satellite_report config_data site.

(** The whole script, from line 121 on, for a decoded configuration
    file and parsed command-line arguments. *)
Definition main (config_data : json) (cli_city cli_date : option string)
    (clock : Q) : M unit :=
  load_cities config_data ;;
  load_default_city config_data ;;
  let* city := args_city cli_city in
  let* site := resolve_site city in
  let* now := observation_time cli_date clock in
  report config_data site now.

(** How the process ends: [Exited c] is exit status [c]; [Crashed e] is
    an uncaught exception (traceback, non-zero status). *)
Inductive termination :=
| Exited (code : Z)
| Crashed (e : exn)
| OutsideModel.

Definition initial_state (w : store) : state :=
  {| world := w; out := [];
     mycity_data := ∅;
     default_city := JStr "Los Gatos" |}.

(** A run: how the process ends and what it wrote to standard output. *)
Definition run (config_data : json) (cli_city cli_date : option string)
    (clock : Q) (w : store) : termination * list string :=
  match main config_data cli_city cli_date clock (initial_state w) with
  | (Ok _, st) => (Exited 0, out st)
  | (Raise (SystemExit code), st) => (Exited code, out st)
  | (Raise e, st) => (Crashed e, out st)
  | (Unmodelled, st) => (OutsideModel, out st)
  end.

End Script.



(** * What the properties are stated with *)

Section Statements.

Context `{E : Ephem}.

Local Open Scope Q_scope.

(** The angle in degrees, as line 66 computes it. *)
Definition degrees (a : Q) : Q := 180 * a / math_pi.

(** Radians for a given number of degrees (with the script's pi). *)
Definition deg2rad (x : Q) : Q := x * math_pi / 180.



(** Lines 86-88: the altitude [print_visinfo] tests, and the store
    after it was read. *)
Definition altitude_at (body : Body) (location : Observer) (w : store)
    : option (Q * store) :=
  match body_compute body location w with
  | (inr _, w1) =>
      match body_alt body w1 with
      | (inr alt, w2) => Some (alt, w2)
      | _ => None
      end
  | _ => None
  end.

(** Lines 121-160: configuration and command line, up to [args.city]. *)
Definition startup (config_data : json) (cli_city : option string)
    : M string :=
  load_cities config_data ;;
  load_default_city config_data ;;
  args_city cli_city.

(** A computation that neither prints nor calls the library. *)
Definition quiet {A} (c : M A) : Prop :=
  forall st r st', c st = (r, st') ->
    out st' = out st /\ world st' = world st.

(** A computation that does not print. *)
Definition silent {A} (c : M A) : Prop :=
  forall st r st', c st = (r, st') -> out st' = out st.


End Statements.




(** All pairs [(i, j)] with [i < j < n], by increasing [i], then [j]. *)
Definition index_pairs (n : nat) : list (nat * nat) :=
  flat_map (fun i => map (pair i) (range (i + 1) n)) (range 0 n).

Section Scan.

Context `{E : Ephem}.

Local Open Scope Q_scope.

(** The snapshot the scan reads: names, azimuths and altitudes of the
    bodies, and the library's separation function. *)
Variables (name : Body -> string) (az alt : Body -> Q)
          (sep : Q * Q -> Q * Q -> Q).







(** The inner loop body over a list of index pairs. *)
Definition scan_pairs (bodies : list Body) (ps : list (nat * nat))
    (count : Z) : M Z :=
  for_fold ps count (fun ij c => scan_pair bodies (fst ij) (snd ij) c).



End Scan.


(** ** Extra cities, as the configuration lists them *)

Section CityTable.

Context `{E : Ephem}.

Abbreviation city_table := (gmap string (string * string * json)).

Definition with_mycity_data (st : state) (table : city_table) : state :=
  {| world := world st; out := out st;
     mycity_data := table;
     default_city := default_city st |}.

(** The table entry a city item contributes: it has the four keys, and
    its name is a string. *)
Definition city_of (i : json) : option (string * (string * string * json)) :=
  match py_getitem i "name", py_getitem i "latitude",
        py_getitem i "longitude", py_getitem i "elevation" with
  | Ok (JStr name), Ok latitude, Ok longitude, Ok elevation =>
      Some (name, (py_str latitude, py_str longitude, elevation))
  | _, _, _, _ => None
  end.

(** An object that lacks one of the four keys. *)
Definition lacks_city_key (i : json) : Prop :=
  exists kvs,
    i = JObj kvs /\
    (assoc "name" kvs = None \/ assoc "latitude" kvs = None \/
     assoc "longitude" kvs = None \/ assoc "elevation" kvs = None).

(** The table after the items were merged in order. *)
Fixpoint merge_cities (items : list json) (table : city_table) : city_table :=
  match items with
  | [] => table
  | i :: rest =>
      match city_of i with
      | Some (name, data) => merge_cities rest (<[name := data]> table)
      | None => table
      end
  end.

(** The entry of the last item named [name]. *)
Fixpoint latest (name : string) (items : list json)
    : option (string * string * json) :=
  match items with
  | [] => None
  | i :: rest =>
      match latest name rest with
      | Some data => Some data
      | None =>
          match city_of i with
          | Some (n, data) => if String.eqb n name then Some data else None
          | None => None
          end
      end
  end.

(** The body of the loop of lines 131-133. *)
Definition add_city (i : json) : M unit :=
  let* name := lift (py_getitem i "name") in
  let* latitude := lift (py_getitem i "latitude") in
  let* longitude := lift (py_getitem i "longitude") in
  let* elevation := lift (py_getitem i "elevation") in
  let* key := lift (city_key name) in
  update_mycity_data key (py_str latitude, py_str longitude, elevation).

(** A computation that leaves a component [f] of the state alone. *)
Definition keeps {A X} (f : state -> X) (c : M A) : Prop :=
  forall st r st', c st = (r, st') -> f st' = f st.

End CityTable.

(** ** Satellite and comet lines *)

Definition pass_title (name : string) : string :=
  Fmt.nl +:+ name +:+ " visibility -- Next Pass ".

Definition pass_columns : string :=
  "   RISE @        AZ      MAX ALT @      AZ        SET @        AZ".

Definition always_below (name : string) : string :=
  Fmt.nl +:+ name +:+ " always below your horizon (check orbital elements)".

(** A comet item on which the loop body raises [KeyError]: it has no
    [display] key, or it is displayed and has no [db_info] key. *)
Definition comet_lacks_key (i : json) : Prop :=
  (exists k, py_getitem i "display" = Raise (KeyError k)) \/
  (exists d k, py_getitem i "display" = Ok d /\ py_truthy d = true /\
               py_getitem i "db_info" = Raise (KeyError k)).

(** A timestamp whose printed fields have one or two digits. *)
Definition two_digits (dt : datetime) : Prop :=
  0 <= month dt <= 99 /\ 0 <= day dt <= 99 /\
  0 <= hour dt <= 99 /\ 0 <= minute dt <= 99.




(** A line of the close-approach section: two names and a separation
    below the threshold. *)
Definition close_line (line : string) : Prop :=
  exists name_i name_j sep,
    line = pair_line name_i name_j sep /\ (sep < threshold)%Q.

(** Values a [for] loop cannot iterate, and values whose first member
    is a string (the keys of an object, the characters of a string). *)
Definition not_iterable (v : json) : bool :=
  match v with
  | JNull | JBool _ | JInt _ | JFloat _ => true
  | _ => false
  end.

Definition members_are_strings (v : json) : bool :=
  match v with
  | JObj (_ :: _) | JStr (String _ _) => true
  | _ => false
  end.

(** ** A small stand-in for the library

    Used to run the script on concrete inputs.  One observer, whose name
    and date live in the store; a body is a fixed snapshot of its
    attributes together with how the rise and set solver treats it. *)

Module Toy.

Inductive horizon := Crossing | AlwaysUp | NeverUp.

Record snapshot := {
  b_name : string;
  b_alt : Q;
  b_az : Q;
  b_horizon : horizon
}.

Record sky := {
  site_name : string;
  site_date : Q
}.

Definition ok {A} (a : A) : call_t sky A := fun w => (inr a, w).
Definition fail {A} (e : exn) : call_t sky A := fun w => (inl e, w).

Definition city (name : string) : call_t sky unit :=
  if String.eqb name "Boston"
  then fun w => (inr tt, {| site_name := name; site_date := site_date w |})
  else fail (KeyError name).

Definition rename (name : string) : call_t sky unit :=
  fun w => (inr tt, {| site_name := name; site_date := site_date w |}).

Definition redate (d : Q) : call_t sky unit :=
  fun w => (inr tt, {| site_name := site_name w; site_date := d |}).

Definition is_digit (c : ascii) : bool :=
  (48 <=? nat_of_ascii c)%nat && (nat_of_ascii c <=? 57)%nat.

Fixpoint all_digits (s : string) : bool :=
  match s with
  | EmptyString => true
  | String c rest => is_digit c && all_digits rest
  end.

Fixpoint number (acc : Z) (s : string) : Z :=
  match s with
  | EmptyString => acc
  | String c rest => number (10 * acc + Z.of_nat (nat_of_ascii c - 48)) rest
  end.

(** An angle or a date is accepted when it is a non-empty string of
    digits. *)
Definition parse (s : string) : call_t sky Q :=
  if negb (String.eqb s "") && all_digits s then ok (inject_Z (number 0 s))
  else fail (OtherError "ValueError" "unparsable").

Definition set_angle (s : string) : call_t sky unit :=
  fun w => match parse s w with
           | (inr _, w') => (inr tt, w')
           | (inl e, w') => (inl e, w')
           end.

Definition set_elev (v : json) : call_t sky unit :=
  match v with
  | JInt _ | JFloat _ => ok tt
  | _ => fail (OtherError "TypeError" "elevation")
  end.

(** Day [d] shown as a day of January 2000, with hours and minutes. *)
Definition clock_of (d : Q) : datetime :=
  let day := Qfloor d in
  let mins := Qfloor ((d - inject_Z day) * 1440) in
  {| year := 2000; month := 1; day := 1 + day;
     hour := mins / 60; minute := mins mod 60; second := 0 |}.

Definition tuple_of (d : Q) : date_tuple :=
  let c := clock_of d in
  {| t_year := year c; t_month := month c; t_day := day c;
     t_hour := hour c; t_minute := minute c; t_second := 0 |}.

Definition sun : snapshot :=
  {| b_name := "Sun"; b_alt := -(1 # 4); b_az := 5; b_horizon := Crossing |}.

Definition moon : snapshot :=
  {| b_name := "Moon"; b_alt := 1 # 2; b_az := 2; b_horizon := Crossing |}.

Definition planet (name : string) : snapshot :=
  {| b_name := name; b_alt := 1 # 10; b_az := 1; b_horizon := Crossing |}.

Fixpoint until_comma (s : string) : string :=
  match s with
  | EmptyString => EmptyString
  | String c rest =>
      if Ascii.eqb c "," then EmptyString else String c (until_comma rest)
  end.

Fixpoint has_comma (s : string) : bool :=
  match s with
  | EmptyString => false
  | String c rest => Ascii.eqb c "," || has_comma rest
  end.

(** A database line is accepted when it has a comma; the body is named
    by the text before it. *)
Definition readdb (v : json) : call_t sky snapshot :=
  match v with
  | JStr s =>
      if has_comma s
      then ok {| b_name := until_comma s; b_alt := 3; b_az := 3;
                 b_horizon := Crossing |}
      else fail (OtherError "ValueError" "bad database line")
  | _ => fail (OtherError "TypeError" "expected a string")
  end.

Definition readtle (name line1 line2 : json) : call_t sky snapshot :=
  match name with
  | JStr s => ok {| b_name := s; b_alt := 0; b_az := 0; b_horizon := NeverUp |}
  | _ => fail (OtherError "TypeError" "expected a string")
  end.

Definition rising (before : bool) (b : snapshot) : call_t sky Q :=
  fun w =>
    match b_horizon b with
    | Crossing =>
        (inr (if before then site_date w - (1 # 4) else site_date w + (1 # 4))%Q, w)
    | AlwaysUp => (inl (CircumpolarError "AlwaysUpError"), w)
    | NeverUp => (inl (CircumpolarError "NeverUpError"), w)
    end.

Definition setting (b : snapshot) : call_t sky Q :=
  fun w =>
    match b_horizon b with
    | Crossing => (inr (site_date w + (1 # 2))%Q, w)
    | AlwaysUp => (inl (CircumpolarError "AlwaysUpError"), w)
    | NeverUp => (inl (CircumpolarError "NeverUpError"), w)
    end.

Definition pass (b : snapshot) : call_t sky (Q * Q * Q * Q * Q * Q) :=
  match b_horizon b with
  | NeverUp => fail (OtherError "ValueError" "never above the horizon")
  | _ => fun w => (inr (site_date w, 1, site_date w, 1, site_date w, 1)%Q, w)
  end.

Definition separation (p q : Q * Q) : Q :=
  (Qabs (fst p - fst q) + Qabs (snd p - snd q))%Q.

Definition repr (v : json) : string :=
  match v with
  | JStr s => "'" +:+ s +:+ "'"
  | _ => "?"
  end.

#[export] Instance lib : Ephem := {|
  store := sky;
  Observer := unit;
  Body := snapshot;
  py_repr := repr;
  ephem_city := city;
  ephem_Observer := ok tt;
  set_name := fun _ => rename;
  set_lat := fun _ => set_angle;
  set_lon := fun _ => set_angle;
  set_elevation := fun _ => set_elev;
  compute_pressure := fun _ => ok tt;
  set_date := fun _ => redate;
  get_date := fun _ w => (inr (site_date w), w);
  get_name := fun _ w => (inr (site_name w), w);
  ephem_Date := parse;
  ephem_now := fun clock => ok clock;
  ephem_localtime := fun d => ok (clock_of d);
  date_tuple_of := fun d => ok (tuple_of d);
  ephem_Sun := fun _ => ok sun;
  ephem_Moon := fun _ => ok moon;
  ephem_planet := fun name => ok (planet name);
  ephem_readdb := readdb;
  ephem_readtle := readtle;
  body_compute := fun _ _ => ok tt;
  body_name := fun b => ok (b_name b);
  body_alt := fun b => ok (b_alt b);
  body_az := fun b => ok (b_az b);
  body_mag := fun _ => ok (-(3 # 2))%Q;
  body_ra := fun _ => ok 1%Q;
  body_dec := fun _ => ok (1 # 3)%Q;
  moon_phase := fun _ => ok (1 # 2)%Q;
  previous_rising := fun _ => rising true;
  next_rising := fun _ => rising false;
  next_setting := fun _ => setting;
  next_pass := fun _ => pass;
  previous_new_moon := fun d => ok (d - 10)%Q;
  next_new_moon := fun d => ok (d + (39 # 2))%Q;
  next_first_quarter_moon := fun d => ok (d + 27)%Q;
  next_full_moon := fun d => ok (d + 5)%Q;
  next_last_quarter_moon := fun d => ok (d + 12)%Q;
  previous_first_quarter_moon := fun d => ok (d - 3)%Q;
  previous_full_moon := fun d => ok (d - 25)%Q;
  previous_last_quarter_moon := fun d => ok (d - 17)%Q;
  ephem_separation := fun p q => ok (separation p q)
|}.

Definition start : sky := {| site_name := ""; site_date := 0 |}.

Definition st0 : state := initial_state start.



Definition crux : snapshot :=
  {| b_name := "Crux"; b_alt := -(1 # 5); b_az := 3; b_horizon := NeverUp |}.

Definition trio : list snapshot :=
  [ {| b_name := "Venus"; b_alt := 1 # 10; b_az := 1; b_horizon := Crossing |};
    {| b_name := "Jupiter"; b_alt := 1 # 10; b_az := 11 # 10;
       b_horizon := Crossing |};
    {| b_name := "Mars"; b_alt := 1; b_az := 3; b_horizon := Crossing |} ].

(** A configuration with a malformed extra city, a well-formed one, a
    displayed comet and one that is not displayed and has no valid
    database line. *)
Definition hidden_comet : json :=
  JObj [("display", JBool false); ("db_info", JStr "garbage")].

Definition config : json :=
  JObj [("cities",
         JArr [JObj [("name", JStr "Atlantis"); ("latitude", JStr "north");
                     ("longitude", JInt 30); ("elevation", JInt 5)];
               JObj [("name", JStr "Ys"); ("latitude", JInt 48);
                     ("longitude", JInt 4); ("elevation", JInt 0)]]);
        ("comets",
         JArr [JObj [("display", JBool true); ("db_info", JStr "C/Test,h,1")];
               hidden_comet])].

(** Inputs for the further examples. *)
Definition ys : json :=
  JObj [("name", JStr "Ys"); ("latitude", JInt 48); ("longitude", JInt 4);
        ("elevation", JInt 0)].

Definition ys_moved : json :=
  JObj [("name", JStr "Ys"); ("latitude", JStr "47"); ("longitude", JInt 5);
        ("elevation", JInt 10)].

Definition no_latitude : json :=
  JObj [("name", JStr "Thule"); ("longitude", JInt 4); ("elevation", JInt 0)].

Definition iss : snapshot :=
  {| b_name := "ISS"; b_alt := 0; b_az := 0; b_horizon := NeverUp |}.

Definition hubble : snapshot :=
  {| b_name := "HST"; b_alt := 0; b_az := 0; b_horizon := Crossing |}.

Definition hidden_satellite : json :=
  JObj [("display", JBool false); ("name", JInt 0)].

Definition shown_comet : json :=
  JObj [("display", JBool true); ("db_info", JStr "C/Test,h,1")].

End Toy.

(** ** The stand-in with two faults

    The same library, except that the previous-rising query and the
    conversion of a date to a tuple always raise [ValueError]. *)

Module Faulty.

#[export] Instance lib : Ephem := {|
  store := Toy.sky;
  Observer := unit;
  Body := Toy.snapshot;
  py_repr := Toy.repr;
  ephem_city := Toy.city;
  ephem_Observer := Toy.ok tt;
  set_name := fun _ => Toy.rename;
  set_lat := fun _ => Toy.set_angle;
  set_lon := fun _ => Toy.set_angle;
  set_elevation := fun _ => Toy.set_elev;
  compute_pressure := fun _ => Toy.ok tt;
  set_date := fun _ => Toy.redate;
  get_date := fun _ w => (inr (Toy.site_date w), w);
  get_name := fun _ w => (inr (Toy.site_name w), w);
  ephem_Date := Toy.parse;
  ephem_now := fun clock => Toy.ok clock;
  ephem_localtime := fun d => Toy.ok (Toy.clock_of d);
  date_tuple_of := fun _ => Toy.fail (OtherError "ValueError" "date out of range");
  ephem_Sun := fun _ => Toy.ok Toy.sun;
  ephem_Moon := fun _ => Toy.ok Toy.moon;
  ephem_planet := fun name => Toy.ok (Toy.planet name);
  ephem_readdb := Toy.readdb;
  ephem_readtle := Toy.readtle;
  body_compute := fun _ _ => Toy.ok tt;
  body_name := fun b => Toy.ok (Toy.b_name b);
  body_alt := fun b => Toy.ok (Toy.b_alt b);
  body_az := fun b => Toy.ok (Toy.b_az b);
  body_mag := fun _ => Toy.ok (-(3 # 2))%Q;
  body_ra := fun _ => Toy.ok 1%Q;
  body_dec := fun _ => Toy.ok (1 # 3)%Q;
  moon_phase := fun _ => Toy.ok (1 # 2)%Q;
  previous_rising := fun _ _ => Toy.fail (OtherError "ValueError" "no convergence");
  next_rising := fun _ => Toy.rising false;
  next_setting := fun _ => Toy.setting;
  next_pass := fun _ => Toy.pass;
  previous_new_moon := fun d => Toy.ok (d - 10)%Q;
  next_new_moon := fun d => Toy.ok (d + (39 # 2))%Q;
  next_first_quarter_moon := fun d => Toy.ok (d + 27)%Q;
  next_full_moon := fun d => Toy.ok (d + 5)%Q;
  next_last_quarter_moon := fun d => Toy.ok (d + 12)%Q;
  previous_first_quarter_moon := fun d => Toy.ok (d - 3)%Q;
  previous_full_moon := fun d => Toy.ok (d - 25)%Q;
  previous_last_quarter_moon := fun d => Toy.ok (d - 17)%Q;
  ephem_separation := fun p q => Toy.ok (Toy.separation p q)
|}.

Definition st0 : state := initial_state Toy.start.

End Faulty.

(** * Properties *)

(** ** Truncation and the angle formatter *)

Section Truncation.

Local Open Scope Q_scope.

Lemma py_int_nonneg (x : Q) :
  0 <= x -> inject_Z (py_int x) <= x /\ x < inject_Z (py_int x) + 1.
Proof.
  destruct x as [n m]. unfold py_int, Qle, Qlt, inject_Z, Qplus. cbn. intros H.
  assert (Hn : (0 <= n)%Z) by lia.
  rewrite Z.quot_div_nonneg by lia.
  pose proof (Z.div_mod n (Z.pos m) ltac:(lia)) as Hd.
  pose proof (Z.mod_pos_bound n (Z.pos m) ltac:(lia)) as Hm.
  revert Hd Hm. generalize (Z.div n (Z.pos m)) (Z.modulo n (Z.pos m)).
  intros q r Hd Hm. split; nia.
Qed.



End Truncation.

Section Angles.

Local Open Scope Q_scope.

Lemma Qltb_lt (x y : Q) : Qltb x y = true <-> x < y.
Proof.
  unfold Qltb. rewrite negb_true_iff, <- not_true_iff_false, Qle_bool_iff.
  split; [apply Qnot_le_lt | apply Qlt_not_le].
Qed.

Lemma Qltb_ge (x y : Q) : Qltb x y = false <-> y <= x.
Proof.
  unfold Qltb. rewrite negb_false_iff. apply Qle_bool_iff.
Qed.

Lemma fmt_angle_fields (a : Q) :
  fmt_angle a = Fmt.d 3 (angle_deg a) +:+ ":" +:+ Fmt.d0 2 (angle_min a).
Proof. reflexivity. Qed.


Lemma angle_min_unfold (a : Q) :
  angle_min a =
  py_int ((degrees a - inject_Z (angle_deg a)) * 60 + (1 # 2)).
Proof. reflexivity. Qed.

Lemma angle_min_nearest (a : Q) :
  0 <= degrees a ->
  inject_Z (angle_min a) - (1 # 2) <= (degrees a - inject_Z (angle_deg a)) * 60 /\
  (degrees a - inject_Z (angle_deg a)) * 60 < inject_Z (angle_min a) + (1 # 2).
Proof.
  intros H. destruct (py_int_nonneg _ H) as [L U].
  change (py_int (degrees a)) with (angle_deg a) in L, U.
  rewrite angle_min_unfold.
  set (y := (degrees a - inject_Z (angle_deg a)) * 60 + (1 # 2)).
  assert (Ey : y == (degrees a - inject_Z (angle_deg a)) * 60 + (1 # 2))
    by reflexivity.
  clearbody y.
  assert (P : 0 <= y) by lra.
  destruct (py_int_nonneg _ P) as [L' U'].
  split; lra.
Qed.


(** Below zero the minutes keep the sign and [int(x + 0.5)] moves them
    toward zero: -10.76 degrees is printed with minute field -45. *)
Example fmt_angle_below_zero :
  fmt_angle (deg2rad (- (1076 # 100))) = "-10:-45".
Proof. reflexivity. Qed.



End Angles.

(** ** Lunation *)

Section Lunation.

Context `{E : Ephem}.

Local Open Scope Q_scope.




End Lunation.

(** ** Reasoning about runs *)

Section Runs.

Context `{E : Ephem}.

Lemma bind_ok {A B} (c : M A) (k : A -> M B) st b st' :
  bind c k st = (Ok b, st') ->
  exists a st1, c st = (Ok a, st1) /\ k a st1 = (Ok b, st').
Proof.
  unfold bind. destruct (c st) as [[a | e |] st1]; intros H;
    try discriminate. eauto.
Qed.

Lemma bind_step {A B} (c : M A) (k : A -> M B) st a st1 :
  c st = (Ok a, st1) -> bind c k st = k a st1.
Proof. unfold bind. intros ->. reflexivity. Qed.

Lemma bind_raise {A B} (c : M A) (k : A -> M B) st e st1 :
  c st = (Raise e, st1) -> bind c k st = (Raise e, st1).
Proof. unfold bind. intros ->. reflexivity. Qed.

Lemma bind_assoc {A B C} (c : M A) (k : A -> M B) (h : B -> M C) st :
  bind (bind c k) h st = bind c (fun a => bind (k a) h) st.
Proof. unfold bind. destruct (c st) as [[a | e |] st1]; reflexivity. Qed.

Lemma call_ok {A} (op : call_t store A) st a w :
  op (world st) = (inr a, w) -> call op st = (Ok a, with_world st w).
Proof. unfold call. intros ->. reflexivity. Qed.

Lemma call_raise {A} (op : call_t store A) st e w :
  op (world st) = (inl e, w) -> call op st = (Raise e, with_world st w).
Proof. unfold call. intros ->. reflexivity. Qed.


(** A library call prints nothing and leaves the globals alone. *)
Lemma call_out {A} (op : call_t store A) st r st' :
  call op st = (r, st') -> out st' = out st.
Proof.
  unfold call. destruct (op (world st)) as [[e | x] w]; intros H;
    inversion H; reflexivity.
Qed.

Lemma quiet_silent {A} (c : M A) : quiet c -> silent c.
Proof. intros H st r st' Hc. exact (proj1 (H _ _ _ Hc)). Qed.

Lemma silent_call {A} (op : call_t store A) : silent (call op).
Proof. intros st r st'. apply call_out. Qed.

Lemma silent_bind {A B} (c : M A) (k : A -> M B) :
  silent c -> (forall a, silent (k a)) -> silent (bind c k).
Proof.
  intros Hc Hk st r st'. unfold bind.
  destruct (c st) as [[a | e |] st1] eqn:C; intros H.
  - rewrite (Hk a _ _ _ H). exact (Hc _ _ _ C).
  - inversion H; subst. exact (Hc _ _ _ C).
  - inversion H; subst. exact (Hc _ _ _ C).
Qed.

Lemma silent_try {A} (c : M A) handles (h : M A) :
  silent c -> silent h -> silent (try_except c handles h).
Proof.
  intros Hc Hh st r st'. unfold try_except.
  destruct (c st) as [[a | e |] st1] eqn:C; intros H.
  - inversion H; subst. exact (Hc _ _ _ C).
  - pose proof (Hc _ _ _ C) as O. destruct (handles e).
    + rewrite (Hh _ _ _ H). exact O.
    + inversion H; subst. exact O.
  - inversion H; subst. exact (Hc _ _ _ C).
Qed.




End Runs.


(** ** Strings of fixed width *)

Section Columns.

Lemma length_append (a b : string) :
  String.length (a +:+ b) = (String.length a + String.length b)%nat.
Proof. induction a as [| c a IH]; simpl; [reflexivity | now rewrite IH]. Qed.

Lemma length_replicate (n : nat) (c : ascii) :
  String.length (Fmt.replicate n c) = n.
Proof. induction n as [| n IH]; simpl; [reflexivity | now rewrite IH]. Qed.

Lemma length_prefix (p : nat) (s : string) :
  String.length (String.substring 0 p s) = Nat.min p (String.length s).
Proof.
  revert s. induction p as [| p IH]; intros [| c s]; simpl; try reflexivity.
  now rewrite IH.
Qed.

(** The name column is exactly 19 characters wide. *)
Lemma name_column_width (name : string) :
  String.length (Fmt.s_fill "." 19 19 name) = 19%nat.
Proof.
  unfold Fmt.s_fill, Fmt.ljust.
  rewrite length_append, length_replicate, length_prefix. lia.
Qed.


End Columns.

(** ** The visibility reporter *)

Section Visibility.

Context `{E : Ephem}.

Local Open Scope Q_scope.




Lemma print_visinfo_branch body location st alt w2 :
  altitude_at body location (world st) = Some (alt, w2) ->
  print_visinfo body location st =
  (if Qltb 0 alt then
     let* r_time := rise_field body location in
     let* s_time := set_field body location in
     print_visible body location r_time s_time
   else print_hidden body location) (with_world st w2).
Proof.
  unfold altitude_at, print_visinfo. intros H.
  destruct (body_compute body location (world st)) as [[e | u] w1] eqn:H1;
    [discriminate |].
  destruct (body_alt body w1) as [[e | a] w] eqn:H2; [discriminate |].
  inversion H; subst.
  rewrite (bind_step _ _ _ _ _ (call_ok _ _ _ _ H1)).
  rewrite (bind_step _ _ _ alt (with_world st w2)); [reflexivity |].
  apply (call_ok (body_alt body) (with_world st w1) alt w2 H2).
Qed.

Lemma rise_field_out body location st r st' :
  rise_field body location st = (r, st') -> out st' = out st.
Proof.
  unfold rise_field, try_except, bind, ret, call.
  destruct (previous_rising location body (world st)) as [[e | t] w];
    [destruct (is_CircumpolarError e) |
     destruct (ephem_localtime t (world (with_world st w))) as [[e | dt] w'];
       [destruct (is_CircumpolarError e) |]];
    intros H; inversion H; reflexivity.
Qed.






End Visibility.

(** ** Circumpolar bodies *)




Section Horizon.

Context `{E : Ephem}.

Local Open Scope Q_scope.




(** C4: for a body that is not up, the next-rising and next-setting
    queries run unguarded: whatever exception either raises, a
    circumpolar one included, leaves [print_visinfo] as it is, and no
    row is printed. *)
Theorem hidden_branch_propagates body location st alt w2 :
  altitude_at body location (world st) = Some (alt, w2) ->
  alt <= 0 ->
  (forall e w3,
     next_rising location body w2 = (inl e, w3) ->
     print_visinfo body location st = (Raise e, with_world st w3)) /\
  (forall t w3 dt w4 e w5,
     next_rising location body w2 = (inr t, w3) ->
     ephem_localtime t w3 = (inr dt, w4) ->
     next_setting location body w4 = (inl e, w5) ->
     print_visinfo body location st = (Raise e, with_world st w5)).
Proof.
  intros Ha Hle. apply Qltb_ge in Hle.
  rewrite (print_visinfo_branch _ _ _ _ _ Ha), Hle.
  unfold print_hidden, bind, call. simpl. split.
  - intros e w3 ->. reflexivity.
  - intros t w3 dt w4 e w5 H1 H2 H3.
    rewrite H1. simpl. rewrite H2. simpl. rewrite H3. reflexivity.
Qed.

End Horizon.

(** ** Start-up and the observer's site *)

Section Site.

Context `{E : Ephem}.

Lemma quiet_ret {A} (a : A) : quiet (ret a).
Proof. intros st r st' H. inversion H. auto. Qed.

Lemma quiet_raise {A} (e : exn) : quiet (@raise E A e).
Proof. intros st r st' H. inversion H. auto. Qed.

Lemma quiet_lift {A} (o : outcome A) : quiet (lift o).
Proof. intros st r st' H. inversion H. auto. Qed.

Lemma quiet_bind {A B} (c : M A) (k : A -> M B) :
  quiet c -> (forall a, quiet (k a)) -> quiet (bind c k).
Proof.
  intros Hc Hk st r st'. unfold bind.
  destruct (c st) as [[a | e |] st1] eqn:C; intros H.
  - destruct (Hc _ _ _ C) as [O W]. destruct (Hk a _ _ _ H) as [O' W'].
    split; congruence.
  - inversion H; subst. exact (Hc _ _ _ C).
  - inversion H; subst. exact (Hc _ _ _ C).
Qed.

Lemma quiet_try {A} (c : M A) handles (h : M A) :
  quiet c -> quiet h -> quiet (try_except c handles h).
Proof.
  intros Hc Hh st r st'. unfold try_except.
  destruct (c st) as [[a | e |] st1] eqn:C; intros H.
  - inversion H; subst. exact (Hc _ _ _ C).
  - destruct (Hc _ _ _ C) as [O W]. destruct (handles e).
    + destruct (Hh _ _ _ H) as [O' W']. split; congruence.
    + inversion H; subst. auto.
  - inversion H; subst. exact (Hc _ _ _ C).
Qed.

Lemma quiet_for_each {A} (items : list A) (body : A -> M unit) :
  (forall x, quiet (body x)) -> quiet (for_each items body).
Proof.
  intros Hb. induction items as [| x rest IH]; simpl.
  - apply quiet_ret.
  - apply quiet_bind; [apply Hb | intros _; exact IH].
Qed.

Lemma quiet_update name data : quiet (update_mycity_data name data).
Proof. intros st r st' H. inversion H. auto. Qed.

Lemma quiet_load_cities config : quiet (load_cities config).
Proof.
  unfold load_cities.
  apply quiet_try; [| apply quiet_ret].
  repeat (apply quiet_bind; [apply quiet_lift | intros ?]).
  apply quiet_for_each. intros i.
  repeat (apply quiet_bind; [apply quiet_lift | intros ?]).
  apply quiet_update.
Qed.

Lemma quiet_load_default_city config : quiet (load_default_city config).
Proof.
  unfold load_default_city.
  apply quiet_try; [| apply quiet_ret].
  apply quiet_bind; [apply quiet_lift | intros city].
  intros st r st' H. inversion H. auto.
Qed.

Lemma quiet_args_city cli_city : quiet (args_city cli_city).
Proof.
  destruct cli_city as [c |]; simpl; [apply quiet_ret |].
  apply quiet_bind; [| intros ?; apply quiet_lift].
  intros st r st' H. inversion H. auto.
Qed.

Lemma quiet_startup config cli_city : quiet (startup config cli_city).
Proof.
  unfold startup.
  apply quiet_bind; [apply quiet_load_cities | intros _].
  apply quiet_bind; [apply quiet_load_default_city | intros _].
  apply quiet_args_city.
Qed.

Lemma main_after_startup config cli_city cli_date clock st :
  main config cli_city cli_date clock st =
  bind (startup config cli_city)
       (fun city =>
          let* site := resolve_site city in
          let* now := observation_time cli_date clock in
          report config site now) st.
Proof.
  unfold main, startup. rewrite !bind_assoc.
  unfold bind. destruct (load_cities config st) as [[[] | e |] st1];
    try reflexivity.
  destruct (load_default_city config st1) as [[[] | e |] st2]; reflexivity.
Qed.

(** The extra-city lookup prints nothing. *)
Lemma additional_city_out city st r st' :
  additional_city city st = (r, st') -> out st' = out st.
Proof.
  revert st r st'. change (silent (additional_city city)).
  unfold additional_city.
  apply silent_bind.
  - apply silent_try; [| apply quiet_silent, quiet_raise].
    apply silent_bind.
    + intros st r st' H. inversion H. reflexivity.
    + intros table. destruct (table !! city);
        apply quiet_silent; [apply quiet_ret | apply quiet_raise].
  - intros [[lat lon] elevation].
    repeat (apply silent_bind; [apply silent_call | intros ?]).
    apply quiet_silent, quiet_ret.
Qed.

(** Lines 164-171 when both lookups fail: the diagnostic, then
    [exit(0)]. *)
Lemma resolve_site_not_found city st k w' e st2 :
  ephem_city city (world st) = (inl (KeyError k), w') ->
  additional_city city (with_world st w') = (Raise e, st2) ->
  resolve_site city st =
  (Raise (SystemExit 0), with_line st2 (not_found_message city)).
Proof.
  intros H1 H2. unfold resolve_site, try_except.
  rewrite (call_raise _ _ _ _ H1). simpl. rewrite H2. reflexivity.
Qed.

Lemma run_exits_at_site config cli_city cli_date clock w city st1 code st2 :
  startup config cli_city (initial_state w) = (Ok city, st1) ->
  resolve_site city st1 = (Raise (SystemExit code), st2) ->
  run config cli_city cli_date clock w = (Exited code, out st2).
Proof.
  intros H1 H2. unfold run. rewrite main_after_startup.
  rewrite (bind_step _ _ _ _ _ H1).
  rewrite (bind_raise _ _ _ _ _ H2). reflexivity.
Qed.

Lemma run_not_found config cli_city cli_date clock w city st1 k w' e st2 :
  startup config cli_city (initial_state w) = (Ok city, st1) ->
  ephem_city city w = (inl (KeyError k), w') ->
  additional_city city (with_world st1 w') = (Raise e, st2) ->
  run config cli_city cli_date clock w = (Exited 0, [not_found_message city]).
Proof.
  intros H1 H2 H3.
  destruct (quiet_startup _ _ _ _ _ H1) as [O W]. simpl in O, W.
  rewrite <- W in H2.
  rewrite (run_exits_at_site _ _ _ _ _ _ _ _ _ H1
             (resolve_site_not_found _ _ _ _ _ _ H2 H3)).
  simpl. rewrite (additional_city_out _ _ _ _ H3). simpl. rewrite O.
  reflexivity.
Qed.

Lemma additional_city_unknown city st :
  mycity_data st !! city = None ->
  additional_city city st =
  (Raise (KeyError ("Unknown city: " +:+ py_repr (JStr city))), st).
Proof.
  intros H. unfold additional_city, try_except, get_mycity_data, bind.
  rewrite H. reflexivity.
Qed.

Lemma additional_city_bad_latitude city st lat lon elev o w1 u w2 e w3 :
  mycity_data st !! city = Some (lat, lon, elev) ->
  ephem_Observer (world st) = (inl e, w1) \/
  (ephem_Observer (world st) = (inr o, w1) /\
   set_name o city w1 = (inr u, w2) /\
   set_lat o lat w2 = (inl e, w3)) ->
  exists st2, additional_city city st = (Raise e, st2).
Proof.
  intros H [H1 | (H1 & H2 & H3)];
    unfold additional_city, try_except, get_mycity_data, bind, call;
    rewrite H; simpl; rewrite H1; simpl; [eauto |].
  rewrite H2. simpl. rewrite H3. eauto.
Qed.

(** C6: when the requested city is in neither the library's city
    database (its lookup raises [KeyError]) nor the extra-city table,
    the whole output of the run is the line
    "City '<name>' not found in global or local list" and the process
    ends with exit status 0. *)
Theorem unknown_city_exits_cleanly
    config cli_city cli_date clock w city st1 k w' :
  startup config cli_city (initial_state w) = (Ok city, st1) ->
  ephem_city city w = (inl (KeyError k), w') ->
  mycity_data st1 !! city = None ->
  run config cli_city cli_date clock w =
  (Exited 0, ["City '" +:+ city +:+ "' not found in global or local list"]).
Proof.
  intros H1 H2 H3.
  change (run config cli_city cli_date clock w =
          (Exited 0, [not_found_message city])).
  eapply run_not_found; [exact H1 | exact H2 |].
  apply additional_city_unknown. exact H3.
Qed.

(** C9: the fallback catches every exception of the extra-city lookup.
    Whatever [additional_city] raises, the run prints the "not found"
    line and ends with exit status 0; in particular for a city that is
    in the extra-city table but whose latitude string the library
    rejects. *)
Theorem malformed_extra_city_reported_not_found
    config cli_city cli_date clock w city st1 k w' :
  startup config cli_city (initial_state w) = (Ok city, st1) ->
  ephem_city city w = (inl (KeyError k), w') ->
  (forall e st2,
     additional_city city (with_world st1 w') = (Raise e, st2) ->
     run config cli_city cli_date clock w =
     (Exited 0, [not_found_message city])) /\
  (forall lat lon elev o w1 u w2 e w3,
     mycity_data st1 !! city = Some (lat, lon, elev) ->
     ephem_Observer w' = (inr o, w1) ->
     set_name o city w1 = (inr u, w2) ->
     set_lat o lat w2 = (inl e, w3) ->
     run config cli_city cli_date clock w =
     (Exited 0, [not_found_message city])).
Proof.
  intros H1 H2. split.
  - intros e st2 H3. exact (run_not_found _ _ _ _ _ _ _ _ _ _ _ H1 H2 H3).
  - intros lat lon elev o w1 u w2 e w3 Ht Ho Hn Hl.
    destruct (additional_city_bad_latitude city (with_world st1 w')
                lat lon elev o w1 u w2 e w3 Ht
                (or_intror (conj Ho (conj Hn Hl)))) as [st2 H3].
    exact (run_not_found _ _ _ _ _ _ _ _ _ _ _ H1 H2 H3).
Qed.

End Site.

(** ** Comets that are not displayed *)

Section Comets.

Context `{E : Ephem}.

Lemma bind_ext {A B} (c : M A) (k k' : A -> M B) st :
  (forall a st1, k a st1 = k' a st1) -> bind c k st = bind c k' st.
Proof.
  intros H. unfold bind. destruct (c st) as [[a | e |] st1]; auto.
Qed.

Lemma try_except_ext {A} (c c' : M A) handles (h : M A) st :
  c st = c' st -> try_except c handles h st = try_except c' handles h st.
Proof. unfold try_except. intros ->. reflexivity. Qed.

Lemma comet_entry_skipped site i d st :
  py_getitem i "display" = Ok d -> py_truthy d = false ->
  comet_entry site i st = (Ok tt, st).
Proof.
  intros H T. unfold comet_entry, bind, lift. rewrite H, T. reflexivity.
Qed.

Lemma comet_loop_skips site i d before after st :
  py_getitem i "display" = Ok d -> py_truthy d = false ->
  for_each (before ++ i :: after) (comet_entry site) st =
  for_each (before ++ after) (comet_entry site) st.
Proof.
  intros H T. revert st. induction before as [| x rest IH]; intros st; simpl.
  - unfold bind at 1. rewrite (comet_entry_skipped site i d st H T).
    reflexivity.
  - apply bind_ext. intros _ st1. apply IH.
Qed.

Lemma comet_report_listed items others site st :
  comet_report (JObj (("comets", JArr items) :: others)) site st =
  try_except
    (print comet_header ;;
     print table_rule ;;
     for_each items (comet_entry site) ;;
     print table_rule)
    is_KeyError (ret tt) st.
Proof. reflexivity. Qed.

(** C7: a comet entry whose display flag is false is skipped.  The
    entry changes neither the library's store nor the output: its
    [db_info] is not read, [ephem.readdb] and [print_visinfo] are not
    called, whatever the library would do with that [db_info].  The
    comet table is the one printed for the configuration without the
    entry. *)
Theorem hidden_comet_is_skipped site i d :
  py_getitem i "display" = Ok d ->
  py_truthy d = false ->
  (forall st, comet_entry site i st = (Ok tt, st)) /\
  (forall before after st,
     for_each (before ++ i :: after) (comet_entry site) st =
     for_each (before ++ after) (comet_entry site) st) /\
  (forall before after others st,
     comet_report (JObj (("comets", JArr (before ++ i :: after)) :: others))
       site st =
     comet_report (JObj (("comets", JArr (before ++ after)) :: others))
       site st).
Proof.
  intros H T. split; [| split].
  - intros st. exact (comet_entry_skipped site i d st H T).
  - intros before after st. exact (comet_loop_skips site i d before after st H T).
  - intros before after others st. rewrite !comet_report_listed.
    apply try_except_ext.
    apply bind_ext. intros _ st1.
    apply bind_ext. intros _ st2.
    unfold bind.
    rewrite (comet_loop_skips site i d before after st2 H T).
    reflexivity.
Qed.

End Comets.

(** ** The observation instant *)

Section Clock.

Context `{E : Ephem}.

Lemma observation_time_explicit d clock :
  d <> "" -> observation_time (Some d) clock = call (ephem_Date d).
Proof.
  intros H. unfold observation_time. simpl.
  destruct (String.eqb_spec d ""); [contradiction | reflexivity].
Qed.


End Clock.

(** ** The conjunction scan *)

Section ScanFacts.

Context `{E : Ephem}.

Local Open Scope Q_scope.

Variables (name : Body -> string) (az alt : Body -> Q)
          (sep : Q * Q -> Q * Q -> Q).






Lemma for_fold_app {A B} (l1 l2 : list A) (acc : B) body st :
  for_fold (l1 ++ l2) acc body st =
  bind (for_fold l1 acc body) (fun acc' => for_fold l2 acc' body) st.
Proof.
  revert acc st. induction l1 as [| x rest IH]; intros acc st; simpl.
  - reflexivity.
  - rewrite bind_assoc. apply bind_ext. intros a st1. apply IH.
Qed.

Lemma for_fold_map {A A' B} (f : A -> A') (l : list A) (acc : B) body st :
  for_fold (map f l) acc body st = for_fold l acc (fun x => body (f x)) st.
Proof.
  revert acc st. induction l as [| x rest IH]; intros acc st; simpl.
  - reflexivity.
  - apply bind_ext. intros a st1. apply IH.
Qed.

(** The nested loops visit [index_pairs] in order. *)
Lemma nested_loops_flatten bodies (is_ : list nat) (n : nat) count st :
  for_fold is_ count (fun i c =>
    for_fold (range (i + 1) n) c (fun j c' => scan_pair bodies i j c')) st =
  scan_pairs bodies
    (flat_map (fun i => map (pair i) (range (i + 1) n)) is_) count st.
Proof.
  unfold scan_pairs. revert count st.
  induction is_ as [| i rest IH]; intros count st; simpl.
  - reflexivity.
  - rewrite for_fold_app. apply eq_trans with
      (bind (for_fold (range (i + 1) n) count
               (fun j c' => scan_pair bodies i j c'))
            (fun acc' => for_fold
               (flat_map (fun i0 => map (pair i0) (range (i0 + 1) n)) rest)
               acc' (fun ij c => scan_pair bodies (fst ij) (snd ij) c)) st).
    + apply bind_ext. intros a st1. apply IH.
    + unfold bind. rewrite for_fold_map. reflexivity.
Qed.

Lemma conjunction_scan_flat bodies st :
  conjunction_scan bodies st =
  scan_pairs bodies (index_pairs (length bodies)) 0 st.
Proof. unfold conjunction_scan, index_pairs. apply nested_loops_flatten. Qed.











End ScanFacts.

(** * Further properties *)

(** ** Reading the configuration *)

Section Configuration.

Context `{E : Ephem}.

Lemma keeps_ret {A X} (f : state -> X) (a : A) : keeps f (ret a).
Proof. intros st r st' H. inversion H. reflexivity. Qed.

Lemma keeps_lift {A X} (f : state -> X) (o : outcome A) : keeps f (lift o).
Proof. intros st r st' H. inversion H. reflexivity. Qed.

Lemma keeps_bind {A B X} (f : state -> X) (c : M A) (k : A -> M B) :
  keeps f c -> (forall a, keeps f (k a)) -> keeps f (bind c k).
Proof.
  intros Hc Hk st r st'. unfold bind.
  destruct (c st) as [[a | e |] st1] eqn:C; intros H.
  - rewrite (Hk a _ _ _ H). exact (Hc _ _ _ C).
  - inversion H; subst. exact (Hc _ _ _ C).
  - inversion H; subst. exact (Hc _ _ _ C).
Qed.

Lemma keeps_try {A X} (f : state -> X) (c : M A) handles (h : M A) :
  keeps f c -> keeps f h -> keeps f (try_except c handles h).
Proof.
  intros Hc Hh st r st'. unfold try_except.
  destruct (c st) as [[a | e |] st1] eqn:C; intros H.
  - inversion H; subst. exact (Hc _ _ _ C).
  - pose proof (Hc _ _ _ C) as O. destruct (handles e).
    + rewrite (Hh _ _ _ H). exact O.
    + inversion H; subst. exact O.
  - inversion H; subst. exact (Hc _ _ _ C).
Qed.

Lemma keeps_for_each {A X} (f : state -> X) (items : list A) body :
  (forall x, keeps f (body x)) -> keeps f (for_each items body).
Proof.
  intros Hb. induction items as [| x rest IH]; simpl.
  - apply keeps_ret.
  - apply keeps_bind; [apply Hb | intros _; exact IH].
Qed.

Lemma load_cities_keeps_default config : keeps default_city (load_cities config).
Proof.
  unfold load_cities. apply keeps_try; [| apply keeps_ret].
  repeat (apply keeps_bind; [apply keeps_lift | intros ?]).
  apply keeps_for_each. intros i.
  repeat (apply keeps_bind; [apply keeps_lift | intros ?]).
  intros st r st' H. inversion H. reflexivity.
Qed.

Lemma load_default_city_keeps_table config :
  keeps mycity_data (load_default_city config).
Proof.
  unfold load_default_city. apply keeps_try; [| apply keeps_ret].
  apply keeps_bind; [apply keeps_lift | intros city].
  intros st r st' H. inversion H. reflexivity.
Qed.

Lemma city_of_some i name data :
  city_of i = Some (name, data) ->
  exists latitude longitude elevation,
    py_getitem i "name" = Ok (JStr name) /\
    py_getitem i "latitude" = Ok latitude /\
    py_getitem i "longitude" = Ok longitude /\
    py_getitem i "elevation" = Ok elevation /\
    data = (py_str latitude, py_str longitude, elevation).
Proof.
  unfold city_of. intros H.
  destruct (py_getitem i "name") as [[| | | | n | |] | |]; try discriminate.
  destruct (py_getitem i "latitude") as [la | |]; try discriminate.
  destruct (py_getitem i "longitude") as [lo | |]; try discriminate.
  destruct (py_getitem i "elevation") as [el | |]; try discriminate.
  inversion H; subst. eauto 10.
Qed.

Lemma load_cities_loop config items st :
  py_getitem config "cities" = Ok (JArr items) ->
  load_cities config st =
  try_except (for_each items add_city) is_KeyError (ret tt) st.
Proof.
  intros H. unfold load_cities, try_except, bind, lift. rewrite H. reflexivity.
Qed.

Lemma add_city_well_formed i name data st :
  city_of i = Some (name, data) ->
  add_city i st =
  (Ok tt, with_mycity_data st (<[name := data]> (mycity_data st))).
Proof.
  intros H.
  destruct (city_of_some _ _ _ H) as (la & lo & el & H1 & H2 & H3 & H4 & ->).
  unfold add_city, bind, lift. rewrite H1, H2, H3, H4. reflexivity.
Qed.

Lemma add_city_lacking_key i st :
  lacks_city_key i -> exists k, add_city i st = (Raise (KeyError k), st).
Proof.
  intros (kvs & -> & H). unfold add_city, bind, lift, py_getitem.
  destruct (assoc "name" kvs) as [n |]; [| eauto].
  destruct (assoc "latitude" kvs) as [la |]; [| eauto].
  destruct (assoc "longitude" kvs) as [lo |]; [| eauto].
  destruct (assoc "elevation" kvs) as [el |]; [| eauto].
  destruct H as [H | [H | [H | H]]]; discriminate H.
Qed.

Lemma merge_well_formed items st :
  Forall (fun i => is_Some (city_of i)) items ->
  for_each items add_city st =
  (Ok tt, with_mycity_data st (merge_cities items (mycity_data st))).
Proof.
  intros H. revert st. induction H as [| i rest [[name data] Hi] _ IH];
    intros st; simpl.
  - destruct st. reflexivity.
  - rewrite Hi. unfold bind at 1.
    rewrite (add_city_well_formed i name data st Hi). rewrite IH. reflexivity.
Qed.

Lemma merge_until_bad before bad after st :
  Forall (fun i => is_Some (city_of i)) before ->
  lacks_city_key bad ->
  exists k,
    for_each (before ++ bad :: after) add_city st =
    (Raise (KeyError k),
     with_mycity_data st (merge_cities before (mycity_data st))).
Proof.
  intros H Hbad. revert st. induction H as [| i rest [[name data] Hi] _ IH];
    intros st; simpl.
  - destruct (add_city_lacking_key bad st Hbad) as [k Hk]. exists k.
    unfold bind. rewrite Hk. destruct st. reflexivity.
  - rewrite Hi. unfold bind at 1.
    rewrite (add_city_well_formed i name data st Hi).
    destruct (IH (with_mycity_data st (<[name := data]> (mycity_data st))))
      as [k Hk].
    exists k. rewrite Hk. reflexivity.
Qed.

(** X1: a city item that lacks one of its keys ends the loading of
    extra cities without an error: the items before it are in the
    table, the item itself and all items after it are not read. *)
Theorem load_cities_stops_at_incomplete_item config before bad after st :
  py_getitem config "cities" = Ok (JArr (before ++ bad :: after)) ->
  Forall (fun i => is_Some (city_of i)) before ->
  lacks_city_key bad ->
  load_cities config st =
  (Ok tt, with_mycity_data st (merge_cities before (mycity_data st))).
Proof.
  intros Hc Hb Hbad. rewrite (load_cities_loop _ _ _ Hc).
  destruct (merge_until_bad before bad after st Hb Hbad) as [k Hk].
  unfold try_except. rewrite Hk. reflexivity.
Qed.

Lemma merge_lookup items table name :
  Forall (fun i => is_Some (city_of i)) items ->
  merge_cities items table !! name =
  match latest name items with
  | Some data => Some data
  | None => table !! name
  end.
Proof.
  intros H. revert table. induction H as [| i rest [[n data] Hi] _ IH];
    intros table; simpl; [reflexivity |].
  rewrite Hi, IH. destruct (latest name rest) as [d |]; [reflexivity |].
  destruct (String.eqb_spec n name) as [-> | Hne].
  - apply lookup_insert_eq.
  - apply lookup_insert_ne. exact Hne.
Qed.

(** X2: when every city item has its four keys and a string name, all
    of them are loaded, and looking a name up in the table gives the
    entry of the last item with that name (latitude and longitude
    through [str]), or what the table held before. *)
Theorem load_cities_last_entry_wins config items st :
  py_getitem config "cities" = Ok (JArr items) ->
  Forall (fun i => is_Some (city_of i)) items ->
  exists st',
    load_cities config st = (Ok tt, st') /\
    out st' = out st /\ world st' = world st /\
    forall name,
      mycity_data st' !! name =
      match latest name items with
      | Some data => Some data
      | None => mycity_data st !! name
      end.
Proof.
  intros Hc Hw.
  exists (with_mycity_data st (merge_cities items (mycity_data st))).
  split; [| split; [reflexivity | split; [reflexivity |]]].
  - rewrite (load_cities_loop _ _ _ Hc). unfold try_except.
    rewrite (merge_well_formed items st Hw). reflexivity.
  - intros name. simpl. apply merge_lookup. exact Hw.
Qed.

(** X3: the city of the run is the [--city] argument when there is one;
    without it, the [default_city] of the configuration; without that,
    "Los Gatos". *)
Theorem city_precedence config w city st1 :
  (forall c,
     startup config (Some c) (initial_state w) = (Ok city, st1) ->
     city = c) /\
  (forall d,
     py_getitem config "default_city" = Ok (JStr d) ->
     startup config None (initial_state w) = (Ok city, st1) ->
     city = d) /\
  (forall k,
     py_getitem config "default_city" = Raise (KeyError k) ->
     startup config None (initial_state w) = (Ok city, st1) ->
     city = "Los Gatos").
Proof.
  unfold startup. split; [| split].
  - intros c H. apply bind_ok in H as (u1 & s1 & _ & H).
    apply bind_ok in H as (u2 & s2 & _ & H). inversion H. reflexivity.
  - intros d Hd H. apply bind_ok in H as (u1 & s1 & H1 & H).
    apply bind_ok in H as (u2 & s2 & H2 & H).
    unfold load_default_city, try_except, bind, lift in H2.
    rewrite Hd in H2. inversion H2; subst. inversion H. reflexivity.
  - intros k Hk H. apply bind_ok in H as (u1 & s1 & H1 & H).
    apply bind_ok in H as (u2 & s2 & H2 & H).
    pose proof (load_cities_keeps_default _ _ _ _ H1) as D.
    unfold load_default_city, try_except, bind, lift in H2.
    rewrite Hk in H2. simpl in H2. inversion H2; subst.
    unfold args_city, bind, get_default_city, lift in H.
    rewrite D in H. inversion H. reflexivity.
Qed.


(** X5: a configuration object without the key of a section is no
    error: no city is added, the default city stays, and the comet and
    satellite sections print nothing and call nothing. *)
Theorem absent_sections_are_skipped kvs site st :
  (assoc "cities" kvs = None -> load_cities (JObj kvs) st = (Ok tt, st)) /\
  (assoc "default_city" kvs = None ->
     load_default_city (JObj kvs) st = (Ok tt, st)) /\
  (assoc "comets" kvs = None ->
     comet_report (JObj kvs) site st = (Ok tt, st)) /\
  (assoc "satellites" kvs = None ->
     satellite_report (JObj kvs) site st = (Ok tt, st)).
Proof.
  repeat split; intros H.
  - unfold load_cities, try_except, bind, lift, py_getitem. rewrite H.
    reflexivity.
  - unfold load_default_city, try_except, bind, lift, py_getitem. rewrite H.
    reflexivity.
  - unfold comet_report, try_except, bind, lift, py_getitem. rewrite H.
    reflexivity.
  - unfold satellite_report, try_except, bind, lift, py_getitem. rewrite H.
    reflexivity.
Qed.

End Configuration.

(** ** Resolving the site *)

Section SiteResolution.

Context `{E : Ephem}.

(** X6: the library's city database comes first.  A city it knows is
    the site, whatever the extra-city table holds under that name; an
    exception of the lookup other than [KeyError] is not caught, and the
    table is not consulted. *)
Theorem builtin_city_comes_first city st :
  (forall o w,
     ephem_city city (world st) = (inr o, w) ->
     resolve_site city st = (Ok o, with_world st w)) /\
  (forall e w,
     ephem_city city (world st) = (inl e, w) ->
     is_KeyError e = false ->
     resolve_site city st = (Raise e, with_world st w)).
Proof.
  split.
  - intros o w H. unfold resolve_site, try_except.
    rewrite (call_ok _ _ _ _ H). reflexivity.
  - intros e w H K. unfold resolve_site, try_except.
    rewrite (call_raise _ _ _ _ H), K. reflexivity.
Qed.

(** X7: a city the library does not know but the extra-city table does
    becomes the site: a fresh observer receives the name, the latitude,
    the longitude and the elevation of the entry, in this order, then
    its pressure is computed; nothing is printed. *)
Theorem extra_city_becomes_site
    city st k lat lon elev o w0 w1 w2 w3 w4 w5 w6 :
  ephem_city city (world st) = (inl (KeyError k), w0) ->
  mycity_data st !! city = Some (lat, lon, elev) ->
  ephem_Observer w0 = (inr o, w1) ->
  set_name o city w1 = (inr tt, w2) ->
  set_lat o lat w2 = (inr tt, w3) ->
  set_lon o lon w3 = (inr tt, w4) ->
  set_elevation o elev w4 = (inr tt, w5) ->
  compute_pressure o w5 = (inr tt, w6) ->
  resolve_site city st = (Ok o, with_world st w6).
Proof.
  intros H0 Ht H1 H2 H3 H4 H5 H6.
  unfold resolve_site, try_except. rewrite (call_raise _ _ _ _ H0). simpl.
  unfold additional_city, try_except, get_mycity_data, bind, call. simpl.
  rewrite Ht. simpl. rewrite H1. simpl. rewrite H2. simpl. rewrite H3. simpl.
  rewrite H4. simpl. rewrite H5. simpl. rewrite H6. reflexivity.
Qed.

Lemma resolve_site_ok_out city st o st' :
  resolve_site city st = (Ok o, st') -> out st' = out st.
Proof.
  unfold resolve_site, try_except. intros H.
  destruct (call (ephem_city city) st) as [[a | e |] st1] eqn:C.
  - inversion H; subst. exact (call_out _ _ _ _ C).
  - pose proof (call_out _ _ _ _ C) as O.
    destruct (is_KeyError e); [| discriminate].
    destruct (additional_city city st1) as [[a | e' |] st2] eqn:A.
    + inversion H; subst. rewrite (additional_city_out _ _ _ _ A). exact O.
    + simpl in H. discriminate.
    + discriminate.
  - discriminate.
Qed.

(** X8: a non-empty [--date] that the library rejects ends the run with
    that exception before anything is printed. *)
Theorem rejected_date_crashes_before_output
    config cli_city d clock w city st1 site st2 cls msg w3 :
  startup config cli_city (initial_state w) = (Ok city, st1) ->
  resolve_site city st1 = (Ok site, st2) ->
  d <> "" ->
  ephem_Date d (world st2) = (inl (OtherError cls msg), w3) ->
  run config cli_city (Some d) clock w = (Crashed (OtherError cls msg), []).
Proof.
  intros H1 H2 Hd H3. unfold run. rewrite main_after_startup.
  rewrite (bind_step _ _ _ _ _ H1), (bind_step _ _ _ _ _ H2).
  rewrite (observation_time_explicit d clock Hd).
  rewrite (bind_raise _ _ _ _ _ (call_raise _ _ _ _ H3)).
  simpl. rewrite (resolve_site_ok_out _ _ _ _ H2).
  destruct (quiet_startup _ _ _ _ _ H1) as [O _]. rewrite O. reflexivity.
Qed.

End SiteResolution.

(** ** Rise and set errors of a body that is up *)

Section RiseSetErrors.

Context `{E : Ephem}.

Local Open Scope Q_scope.

(** X9: for a body that is up, only [CircumpolarError] is replaced by a
    label.  Any other exception of the previous-rising query, or of the
    next-setting query after the rise field was obtained, leaves
    [print_visinfo], and no row is printed. *)
Theorem other_rise_set_errors_propagate body location st alt w2 :
  altitude_at body location (world st) = Some (alt, w2) ->
  0 < alt ->
  (forall e w3,
     previous_rising location body w2 = (inl e, w3) ->
     is_CircumpolarError e = false ->
     print_visinfo body location st = (Raise e, with_world st w3)) /\
  (forall r_time st3 e w4,
     rise_field body location (with_world st w2) = (Ok r_time, st3) ->
     next_setting location body (world st3) = (inl e, w4) ->
     is_CircumpolarError e = false ->
     print_visinfo body location st = (Raise e, with_world st3 w4) /\
     out (with_world st3 w4) = out st).
Proof.
  intros Ha Hpos. apply Qltb_lt in Hpos.
  rewrite (print_visinfo_branch _ _ _ _ _ Ha), Hpos. split.
  - intros e w3 H K.
    unfold bind at 1. unfold rise_field, try_except, bind, call. simpl.
    rewrite H, K. reflexivity.
  - intros r_time st3 e w4 Hr H K. rewrite (bind_step _ _ _ _ _ Hr).
    split.
    + unfold bind at 1. unfold set_field, try_except, bind, call.
      rewrite H, K. reflexivity.
    + simpl. exact (rise_field_out _ _ _ _ _ Hr).
Qed.

End RiseSetErrors.

(** ** Satellites *)

Section Satellites.

Context `{E : Ephem}.

(** X10: when the pass prediction raises, whatever the exception, the
    satellite gets the one line "<name> always below your horizon
    (check orbital elements)" and the report goes on. *)
Theorem failed_pass_prints_fallback site satellite st e w1 name w2 :
  next_pass site satellite (world st) = (inl e, w1) ->
  body_name satellite w1 = (inr name, w2) ->
  satellite_pass site satellite st =
  (Ok tt, with_line (with_world st w2) (always_below name)).
Proof.
  intros H1 H2. unfold satellite_pass, try_except.
  rewrite (bind_raise _ _ _ _ _ (call_raise _ _ _ _ H1)). simpl.
  unfold bind, call. simpl. rewrite H2. reflexivity.
Qed.

(** X11: the fallback also follows a table that was begun.  When the
    prediction succeeds but the first time of the pass cannot be
    formatted, the title, the column line and the rule are already
    printed, and the "always below your horizon" line comes after
    them. *)
Theorem half_printed_pass_gets_fallback
    site satellite st info w1 name w2 e w3 name' w4 :
  next_pass site satellite (world st) = (inr info, w1) ->
  body_name satellite w1 = (inr name, w2) ->
  date_tuple_of (fst (fst (fst (fst (fst info))))) w2 = (inl e, w3) ->
  body_name satellite w3 = (inr name', w4) ->
  exists st',
    satellite_pass site satellite st = (Ok tt, st') /\
    out st' = out st ++ [pass_title name; pass_columns; pass_rule;
                         always_below name'].
Proof.
  intros H1 H2 H3 H4.
  destruct info as [[[[[t_rise az_rise] t_max] alt_max] t_set] az_set].
  simpl in H3. eexists. split.
  - unfold satellite_pass, try_except.
    rewrite (bind_step _ _ _ _ _ (call_ok _ _ _ _ H1)).
    rewrite (bind_step _ _ _ name (with_world st w2))
      by (apply (call_ok (body_name satellite) (with_world st w1)); exact H2).
    unfold bind at 1. unfold print at 1.
    unfold bind at 1. unfold print at 1.
    unfold bind at 1. unfold print at 1.
    unfold bind at 1. unfold fmt_shortdate at 1. unfold bind at 1.
    unfold call at 1. simpl world. rewrite H3.
    unfold any_exn. unfold bind, call. simpl world. rewrite H4.
    reflexivity.
  - simpl. rewrite <- !app_assoc. reflexivity.
Qed.

Lemma call_modelled {A} (op : call_t store A) st st' :
  call op st <> (Unmodelled, st').
Proof.
  unfold call. destruct (op (world st)) as [[e | a] w]; discriminate.
Qed.

Lemma bind_modelled {A B} (c : M A) (k : A -> M B) :
  (forall st st', c st <> (Unmodelled, st')) ->
  (forall a st st', k a st <> (Unmodelled, st')) ->
  forall st st', bind c k st <> (Unmodelled, st').
Proof.
  intros Hc Hk st st'. unfold bind.
  destruct (c st) as [[a | e |] st1] eqn:C.
  - apply Hk.
  - discriminate.
  - exfalso. exact (Hc _ _ C).
Qed.

(** X12: no exception of the pass prediction or of the printing of its
    table leaves [satellite_pass]; the only exception that can is one
    raised by reading the satellite's name for the fallback line. *)
Theorem satellite_pass_contains_errors site satellite st r st' :
  satellite_pass site satellite st = (r, st') ->
  r = Ok tt \/
  exists e w w', r = Raise e /\ body_name satellite w = (inl e, w').
Proof.
  unfold satellite_pass, try_except, any_exn. intros H.
  match type of H with
  | (match ?c st with _ => _ end) = _ =>
      destruct (c st) as [[[] | e0 |] st1] eqn:C
  end.
  - inversion H. left. reflexivity.
  - unfold bind, call in H.
    destruct (body_name satellite (world st1)) as [[e | name] w'] eqn:N.
    + inversion H; subst. right. eauto.
    + inversion H. left. reflexivity.
  - exfalso. revert C. apply bind_modelled; [apply call_modelled |].
    intros [[[[[t_rise az_rise] t_max] alt_max] t_set] az_set].
    repeat first
      [ apply bind_modelled; [| intros ?]
      | apply call_modelled
      | progress unfold fmt_shortdate
      | intros ? ? HH; now inversion HH ].
Qed.

Lemma satellite_entry_skipped site i d st :
  py_getitem i "display" = Ok d -> py_truthy d = false ->
  satellite_entry site i st = (Ok tt, st).
Proof.
  intros H T. unfold satellite_entry, bind, lift. rewrite H, T. reflexivity.
Qed.

(** X13: a satellite item whose display flag is false is skipped: its
    name and element lines are not read, the library is not called, and
    the satellite section is the one of the configuration without the
    item. *)
Theorem hidden_satellite_is_skipped site i d :
  py_getitem i "display" = Ok d ->
  py_truthy d = false ->
  (forall st, satellite_entry site i st = (Ok tt, st)) /\
  (forall before after others st,
     satellite_report
       (JObj (("satellites", JArr (before ++ i :: after)) :: others)) site st =
     satellite_report
       (JObj (("satellites", JArr (before ++ after)) :: others)) site st).
Proof.
  intros H T. split.
  - intros st. exact (satellite_entry_skipped site i d st H T).
  - intros before after others st.
    assert (L : forall st0,
              for_each (before ++ i :: after) (satellite_entry site) st0 =
              for_each (before ++ after) (satellite_entry site) st0).
    { induction before as [| x rest IH]; intros st0; simpl.
      - unfold bind at 1. rewrite (satellite_entry_skipped site i d st0 H T).
        reflexivity.
      - apply bind_ext. intros _ st1. apply IH. }
    unfold satellite_report. apply try_except_ext.
    unfold bind, lift. simpl. apply L.
Qed.

End Satellites.

(** ** Comet items without their keys *)

Section CometKeys.

Context `{E : Ephem}.

Lemma comet_entry_lacking_key site i st :
  comet_lacks_key i -> exists k, comet_entry site i st = (Raise (KeyError k), st).
Proof.
  intros [[k H] | (d & k & H & T & H')]; exists k;
    unfold comet_entry, bind, lift.
  - rewrite H. reflexivity.
  - rewrite H, T, H'. reflexivity.
Qed.

(** X14: a comet item without its [display] key, or displayed without
    its [db_info] key, ends the comet table without an error: the rows
    of the items before it stay, the items after it are not visited, and
    the closing rule of the table is not printed. *)
Theorem comet_table_ends_at_incomplete_item
    site before bad after others st st3 :
  comet_lacks_key bad ->
  for_each before (comet_entry site)
    (with_line (with_line st comet_header) table_rule) = (Ok tt, st3) ->
  comet_report (JObj (("comets", JArr (before ++ bad :: after)) :: others))
    site st = (Ok tt, st3).
Proof.
  intros Hbad Hb. rewrite comet_report_listed. unfold try_except.
  unfold bind at 1. unfold print at 1.
  unfold bind at 1. unfold print at 1.
  assert (L : forall l s s',
            for_each l (comet_entry site) s = (Ok tt, s') ->
            exists k, for_each (l ++ bad :: after) (comet_entry site) s =
                      (Raise (KeyError k), s')).
  { induction l as [| x rest IH]; intros s s' Hl; simpl in *.
    - inversion Hl; subst.
      destruct (comet_entry_lacking_key site bad s' Hbad) as [k Hk].
      exists k. unfold bind. rewrite Hk. reflexivity.
    - apply bind_ok in Hl as ([] & s1 & Hx & Hl).
      destruct (IH _ _ Hl) as [k Hk]. exists k.
      rewrite (bind_step _ _ _ _ _ Hx). exact Hk. }
  destruct (L _ _ _ Hb) as [k Hk].
  rewrite (bind_raise _ _ _ _ _ Hk). reflexivity.
Qed.

End CometKeys.

(** ** Column widths *)

Section Widths.

Local Open Scope Z_scope.

Lemma in_range_nat (z : Z) (n : nat) :
  0 <= z < Z.of_nat n -> In (Z.to_nat z) (seq 0 n) /\ Z.of_nat (Z.to_nat z) = z.
Proof. intros H. split; [apply in_seq; lia | lia]. Qed.

Lemma d0_width (z : Z) :
  0 <= z <= 99 -> String.length (Fmt.d0 2 z) = 2%nat.
Proof.
  intros H. destruct (in_range_nat z 100 ltac:(lia)) as [I <-].
  assert (A : forallb (fun n => Nat.eqb (String.length (Fmt.d0 2 (Z.of_nat n))) 2)
                (seq 0 100) = true) by (vm_compute; reflexivity).
  rewrite forallb_forall in A. apply Nat.eqb_eq. exact (A _ I).
Qed.

Lemma d3_width (z : Z) :
  0 <= z <= 999 -> String.length (Fmt.d 3 z) = 3%nat.
Proof.
  intros H. destruct (in_range_nat z 1000 ltac:(lia)) as [I <-].
  assert (A : forallb (fun n => Nat.eqb (String.length (Fmt.d 3 (Z.of_nat n))) 3)
                (seq 0 1000) = true) by (vm_compute; reflexivity).
  rewrite forallb_forall in A. apply Nat.eqb_eq. exact (A _ I).
Qed.

Lemma fmt_datetime_width (dt : datetime) :
  two_digits dt -> String.length (fmt_datetime dt) = 11%nat.
Proof.
  intros (Hm & Hd & Hh & Hn). unfold fmt_datetime.
  rewrite !length_append, !d0_width by assumption. reflexivity.
Qed.

(** X15: the rise and set columns are 11 characters wide.  A timestamp
    whose month, day, hour and minute are between 0 and 99 has this
    width, as have the two circumpolar labels, and with such timestamps
    the row of a body that is not up is exactly as wide as the table's
    header and rule, whatever the body's name. *)
Theorem hidden_row_is_aligned (name : string) (body_rise body_set : datetime) :
  two_digits body_rise -> two_digits body_set ->
  String.length (fmt_datetime body_rise) = 11%nat /\
  String.length "already up " = 11%nat /\
  String.length "doesn't set" = 11%nat /\
  String.length
    (hidden_row name (fmt_datetime body_rise) (fmt_datetime body_set))
  = String.length table_rule /\
  String.length table_header = String.length table_rule.
Proof.
  intros Hr Hs. split; [apply fmt_datetime_width, Hr |].
  split; [reflexivity |]. split; [reflexivity |].
  split; [| reflexivity].
  unfold hidden_row. rewrite !length_append, name_column_width.
  rewrite !fmt_datetime_width by assumption. reflexivity.
Qed.

End Widths.

Section AngleWidth.

Local Open Scope Q_scope.

Lemma inject_Z_le_inv (a b : Z) : inject_Z a <= inject_Z b -> (a <= b)%Z.
Proof. unfold Qle, inject_Z. simpl. lia. Qed.

Lemma inject_Z_lt_inv (a b : Z) : inject_Z a < inject_Z b -> (a < b)%Z.
Proof. unfold Qlt, inject_Z. simpl. lia. Qed.

(** X16: for an angle of at least 0 and less than 1000 degrees,
    [fmt_angle] prints a degree field between 0 and 999 and a minute
    field between 0 and 60, and the text is exactly 6 characters
    wide. *)
Theorem fmt_angle_fields_in_range (a : Q) :
  0 <= degrees a -> degrees a < 1000 ->
  (0 <= angle_deg a <= 999)%Z /\
  (0 <= angle_min a <= 60)%Z /\
  String.length (fmt_angle a) = 6%nat.
Proof.
  intros H0 H1.
  destruct (py_int_nonneg _ H0) as [L U].
  change (py_int (degrees a)) with (angle_deg a) in L, U.
  destruct (angle_min_nearest a H0) as [L' U'].
  assert (D : (0 <= angle_deg a <= 999)%Z).
  { split.
    - assert (A : inject_Z (-1) < inject_Z (angle_deg a))
        by (change (inject_Z (-1)) with (-1); lra).
      apply inject_Z_lt_inv in A. lia.
    - assert (A : inject_Z (angle_deg a) < inject_Z 1000)
        by (change (inject_Z 1000) with 1000; lra).
      apply inject_Z_lt_inv in A. lia. }
  assert (M : (0 <= angle_min a <= 60)%Z).
  { split.
    - assert (A : inject_Z (-1) < inject_Z (angle_min a))
        by (change (inject_Z (-1)) with (-1); lra).
      apply inject_Z_lt_inv in A. lia.
    - assert (A : inject_Z (angle_min a) < inject_Z 61)
        by (change (inject_Z 61) with 61; lra).
      apply inject_Z_lt_inv in A. lia. }
  split; [exact D |]. split; [exact M |].
  rewrite fmt_angle_fields, !length_append.
  rewrite d3_width by exact D. rewrite d0_width by lia. reflexivity.
Qed.

End AngleWidth.

(** ** Right ascension *)

Section RightAscension.

Local Open Scope Q_scope.





End RightAscension.

(** ** The scan, whatever the library returns *)

Section ScanShape.

Context `{E : Ephem}.

Local Open Scope Q_scope.

Lemma py_index_ok bodies i b st st' :
  py_index bodies i st = (Ok b, st') -> st' = st.
Proof.
  unfold py_index. destruct (bodies !! i); intros H; inversion H; reflexivity.
Qed.

Lemma scan_pair_ok bodies i j count st count' st' :
  scan_pair bodies i j count st = (Ok count', st') ->
  (count' = count /\ out st' = out st) \/
  (count' = (count + 1)%Z /\
   exists line,
     close_line line /\
     out st' = out st ++ (if (count =? 0)%Z then [close_header] else [])
                      ++ [line]).
Proof.
  unfold scan_pair. intros H.
  apply bind_ok in H as (bi & s1 & I1 & H). apply py_index_ok in I1.
  apply bind_ok in H as (az_i & s2 & C2 & H). apply call_out in C2.
  apply bind_ok in H as (bi' & s3 & I3 & H). apply py_index_ok in I3.
  apply bind_ok in H as (alt_i & s4 & C4 & H). apply call_out in C4.
  apply bind_ok in H as (bj & s5 & I5 & H). apply py_index_ok in I5.
  apply bind_ok in H as (az_j & s6 & C6 & H). apply call_out in C6.
  apply bind_ok in H as (bj' & s7 & I7 & H). apply py_index_ok in I7.
  apply bind_ok in H as (alt_j & s8 & C8 & H). apply call_out in C8.
  apply bind_ok in H as (sep & s9 & C9 & H). apply call_out in C9.
  assert (O9 : out s9 = out st) by (subst; congruence).
  destruct (Qltb sep threshold) eqn:T.
  - right. apply Qltb_lt in T.
    apply bind_ok in H as (u & s10 & P10 & H).
    apply bind_ok in H as (bi2 & s11 & I11 & H). apply py_index_ok in I11.
    apply bind_ok in H as (name_i & s12 & C12 & H). apply call_out in C12.
    apply bind_ok in H as (bj2 & s13 & I13 & H). apply py_index_ok in I13.
    apply bind_ok in H as (name_j & s14 & C14 & H). apply call_out in C14.
    apply bind_ok in H as (u' & s15 & P15 & H).
    inversion H; subst count' st'. split; [reflexivity |].
    exists (pair_line name_i name_j sep). split.
    + exists name_i, name_j, sep. split; [reflexivity | exact T].
    + inversion P15; subst s15. simpl. subst s13 s11.
      rewrite C14, C12.
      destruct (count =? 0)%Z; inversion P10; subst s10; simpl;
        rewrite O9; [rewrite <- app_assoc |]; reflexivity.
  - left. inversion H; subst. split; [reflexivity | exact O9].
Qed.

Lemma scan_pairs_ok bodies ps count st count' st' :
  (0 <= count)%Z ->
  scan_pairs bodies ps count st = (Ok count', st') ->
  exists lines,
    count' = (count + Z.of_nat (length lines))%Z /\
    (length lines <= length ps)%nat /\
    Forall close_line lines /\
    out st' = out st ++
      match lines with
      | [] => []
      | _ :: _ => (if (count =? 0)%Z then [close_header] else []) ++ lines
      end.
Proof.
  unfold scan_pairs. revert count st.
  induction ps as [| [i j] ps IH]; intros count st Hc H; simpl in H.
  - inversion H; subst. exists []. simpl.
    split; [lia |]. split; [lia |]. split; [constructor |].
    now rewrite app_nil_r.
  - apply bind_ok in H as (c1 & s1 & H1 & H). simpl in H1.
    apply scan_pair_ok in H1 as [[-> O1] | (-> & line & Hl & O1)].
    + destruct (IH _ _ Hc H) as (lines & Hn & Hlen & HF & Ho).
      exists lines. split; [exact Hn |]. split; [simpl; lia |].
      split; [exact HF |]. rewrite Ho, O1. reflexivity.
    + destruct (IH (count + 1)%Z s1 ltac:(lia) H) as (lines & Hn & Hlen & HF & Ho).
      exists (line :: lines). split; [| split; [| split]].
      * rewrite Hn. simpl length. lia.
      * simpl. lia.
      * constructor; assumption.
      * rewrite Ho, O1.
        destruct (Z.eqb_spec (count + 1) 0) as [Z0 | _]; [lia |].
        rewrite <- !app_assoc. simpl.
        destruct lines; simpl; rewrite ?app_nil_r; reflexivity.
Qed.

Lemma length_rows (n lo len : nat) :
  (lo + len = n)%nat ->
  (2 * length (flat_map (fun i => map (pair i) (range (i + 1) n)) (seq lo len))
   = len * (len - 1))%nat.
Proof.
  revert lo. induction len as [| len IH]; intros lo H; [reflexivity |].
  cbn [seq flat_map]. rewrite length_app, length_map.
  unfold range at 1. rewrite length_seq.
  specialize (IH (S lo) ltac:(lia)). revert IH.
  generalize (length (flat_map (fun i => map (pair i) (range (i + 1) n))
                        (seq (S lo) len))).
  intros L IH. replace (n - (lo + 1))%nat with len by lia.
  destruct len as [| k]; [simpl in *; lia |].
  replace (S k - 1)%nat with k in IH by lia.
  replace (S (S k) - 1)%nat with (S k) by lia. nia.
Qed.

Lemma length_index_pairs (n : nat) :
  (2 * length (index_pairs n) = n * (n - 1))%nat.
Proof.
  unfold index_pairs, range. rewrite Nat.sub_0_r.
  apply (length_rows n 0 n). lia.
Qed.

(** X18: whatever the library returns for the attribute reads and the
    separations, a scan that completes has printed either nothing or
    the header followed by the pair lines; the count it ends with is the
    number of pair lines, every line reports a separation below the
    threshold, and [n] bodies give at most [n (n - 1) / 2] lines. *)
Theorem completed_scan_shape bodies st count st' :
  conjunction_scan bodies st = (Ok count, st') ->
  exists lines,
    count = Z.of_nat (length lines) /\
    (2 * length lines <= length bodies * (length bodies - 1))%nat /\
    Forall close_line lines /\
    out st' = out st ++
      match lines with
      | [] => []
      | _ :: _ => close_header :: lines
      end.
Proof.
  intros H. rewrite conjunction_scan_flat in H.
  destruct (scan_pairs_ok bodies _ 0 st count st' ltac:(lia) H)
    as (lines & Hn & Hlen & HF & Ho).
  exists lines. split; [lia |]. split.
  - rewrite <- length_index_pairs. lia.
  - split; [exact HF |]. rewrite Ho. destruct lines; reflexivity.
Qed.

End ScanShape.

(** ** A [cities] value that is not a list *)

Section CitiesShape.

Context `{E : Ephem}.

(** X19: the [cities] value has to be a list of objects.  A number, a
    boolean or null is not iterable, and the members of a non-empty
    object or string are strings, which cannot be indexed by a key: in
    both cases a [TypeError] leaves the loading, not caught by the
    handler for missing keys, and the table is as it was. *)
Theorem cities_of_wrong_shape_raise config cities st :
  py_getitem config "cities" = Ok cities ->
  not_iterable cities = true \/ members_are_strings cities = true ->
  exists msg,
    load_cities config st = (Raise (OtherError "TypeError" msg), st).
Proof.
  intros H S. unfold load_cities, try_except, bind, lift. rewrite H.
  destruct cities as [| b | z | x | [| c s] | [| i l] | [| [k v] kvs]];
    simpl in *; try (destruct S; discriminate); eauto.
Qed.

End CitiesShape.

(** * Runs on the stand-in library *)

Section Examples.

#[local] Existing Instance Toy.lib.

Local Open Scope Q_scope.




(** A body that is down and never rises: the solver's exception leaves
    [print_visinfo], and nothing is printed. *)
Lemma hidden_branch_propagates_witness :
  print_visinfo (E:=Toy.lib) Toy.crux tt Toy.st0 =
  (Raise (CircumpolarError "NeverUpError"), Toy.st0).
Proof.
  refine (proj1 (hidden_branch_propagates (E:=Toy.lib) Toy.crux tt Toy.st0 (-(1 # 5))
                   Toy.start eq_refl _) _ _ eq_refl).
  vm_compute. discriminate.
Defined.


Lemma unknown_city_exits_cleanly_witness :
  run (E:=Toy.lib) Toy.config (Some "Nowhereville") None 0 Toy.start =
  (Exited 0, ["City 'Nowhereville' not found in global or local list"]).
Proof.
  eapply (unknown_city_exits_cleanly (E:=Toy.lib) Toy.config (Some "Nowhereville") None 0
            Toy.start "Nowhereville"
            (snd (startup (E:=Toy.lib) Toy.config (Some "Nowhereville") Toy.st0))).
  - reflexivity.
  - reflexivity.
  - reflexivity.
Defined.

(** "Atlantis" is in the extra-city table, with a latitude the library
    rejects. *)
Lemma malformed_extra_city_reported_not_found_witness :
  mycity_data (snd (startup (E:=Toy.lib) Toy.config (Some "Atlantis") Toy.st0))
    !! "Atlantis" = Some ("north", "30", JInt 5) /\
  run (E:=Toy.lib) Toy.config (Some "Atlantis") None 0 Toy.start =
  (Exited 0, ["City 'Atlantis' not found in global or local list"]).
Proof.
  split; [reflexivity |].
  eapply (proj2 (malformed_extra_city_reported_not_found (E:=Toy.lib) Toy.config
                   (Some "Atlantis") None 0 Toy.start "Atlantis"
                   (snd (startup (E:=Toy.lib) Toy.config (Some "Atlantis") Toy.st0))
                   "Atlantis" Toy.start eq_refl eq_refl)
            "north" "30" (JInt 5) tt).
  - reflexivity.
  - reflexivity.
  - reflexivity.
  - reflexivity.
Defined.

(** The library rejects the hidden comet's database line, and the entry
    is skipped all the same. *)
Lemma hidden_comet_is_skipped_witness :
  ephem_readdb (Ephem:=Toy.lib) (JStr "garbage") Toy.start =
    (inl (OtherError "ValueError" "bad database line"), Toy.start) /\
  comet_entry (E:=Toy.lib) tt Toy.hidden_comet Toy.st0 = (Ok tt, Toy.st0).
Proof.
  split; [reflexivity |].
  exact (proj1 (hidden_comet_is_skipped (E:=Toy.lib) tt Toy.hidden_comet (JBool false)
                  eq_refl eq_refl) Toy.st0).
Defined.


(** An empty [--date] is treated as absent: the clock is read. *)
Lemma empty_date_reads_clock (clock : Q) :
  observation_time (E:=Toy.lib) (Some "") clock = call (ephem_now (Ephem:=Toy.lib) clock).
Proof. reflexivity. Qed.


(** The item without a latitude stops the loading: "Ys" is in the
    table, the second "Ys" after it is not read. *)
Lemma load_cities_stops_at_incomplete_item_witness :
  exists st',
    load_cities (E:=Toy.lib)
      (JObj [("cities", JArr [Toy.ys; Toy.no_latitude; Toy.ys_moved])])
      Toy.st0 = (Ok tt, st') /\
    mycity_data st' !! "Ys" = Some ("48", "4", JInt 0) /\
    mycity_data st' !! "Thule" = None.
Proof.
  eexists. split.
  - apply (load_cities_stops_at_incomplete_item (E:=Toy.lib) _ [Toy.ys]
             Toy.no_latitude [Toy.ys_moved]).
    + reflexivity.
    + repeat constructor. eexists. reflexivity.
    + exists [("name", JStr "Thule"); ("longitude", JInt 4);
              ("elevation", JInt 0)].
      split; [reflexivity | right; left; reflexivity].
  - split; reflexivity.
Defined.

(** Two items named "Ys": the later one is found. *)
Lemma load_cities_last_entry_wins_witness :
  exists st',
    load_cities (E:=Toy.lib) (JObj [("cities", JArr [Toy.ys; Toy.ys_moved])])
      Toy.st0 = (Ok tt, st') /\
    mycity_data st' !! "Ys" = Some ("47", "5", JInt 10).
Proof.
  destruct (load_cities_last_entry_wins (E:=Toy.lib)
              (JObj [("cities", JArr [Toy.ys; Toy.ys_moved])])
              [Toy.ys; Toy.ys_moved] Toy.st0 eq_refl)
    as (st' & Hl & _ & _ & Hk).
  - repeat constructor; eexists; reflexivity.
  - exists st'. split; [exact Hl |]. rewrite Hk. reflexivity.
Defined.

Lemma city_precedence_witness :
  match fst (startup (E:=Toy.lib) (JObj [("default_city", JStr "Ys")]) None
               Toy.st0) with
  | Ok city => city = "Ys"
  | _ => False
  end.
Proof.
  exact (proj1 (proj2 (city_precedence (E:=Toy.lib)
                         (JObj [("default_city", JStr "Ys")]) Toy.start "Ys"
                         (snd (startup (E:=Toy.lib)
                                 (JObj [("default_city", JStr "Ys")])
                                 None Toy.st0))))
           "Ys" eq_refl eq_refl).
Defined.


Lemma absent_sections_are_skipped_witness :
  comet_report (E:=Toy.lib) (JObj []) tt Toy.st0 = (Ok tt, Toy.st0).
Proof.
  exact (proj1 (proj2 (proj2 (absent_sections_are_skipped (E:=Toy.lib)
                                [] tt Toy.st0))) eq_refl).
Defined.

(** "Boston" is in the library's database. *)
Lemma builtin_city_comes_first_witness :
  fst (resolve_site (E:=Toy.lib) "Boston" Toy.st0) = Ok tt.
Proof.
  rewrite (proj1 (builtin_city_comes_first (E:=Toy.lib) "Boston" Toy.st0)
             tt _ eq_refl).
  reflexivity.
Defined.

(** "Ys" is only in the extra-city table. *)
Lemma extra_city_becomes_site_witness :
  fst (resolve_site (E:=Toy.lib) "Ys"
         (snd (startup (E:=Toy.lib) Toy.config None Toy.st0))) = Ok tt.
Proof.
  erewrite (extra_city_becomes_site (E:=Toy.lib) "Ys"
              (snd (startup (E:=Toy.lib) Toy.config None Toy.st0))
              "Ys" "48" "4" (JInt 0) tt);
    reflexivity.
Defined.

Lemma rejected_date_crashes_before_output_witness :
  run (E:=Toy.lib) Toy.config (Some "Boston") (Some "tomorrow") 0 Toy.start =
  (Crashed (OtherError "ValueError" "unparsable"), []).
Proof.
  eapply (rejected_date_crashes_before_output (E:=Toy.lib) Toy.config
            (Some "Boston") "tomorrow" 0 Toy.start "Boston" _ tt).
  - reflexivity.
  - reflexivity.
  - discriminate.
  - reflexivity.
Defined.

(** With the faulty library the previous-rising query of the Moon, which
    is up, raises [ValueError]. *)
Lemma other_rise_set_errors_propagate_witness :
  print_visinfo (E:=Faulty.lib) Toy.moon tt Faulty.st0 =
  (Raise (OtherError "ValueError" "no convergence"), Faulty.st0).
Proof.
  refine (proj1 (other_rise_set_errors_propagate (E:=Faulty.lib) Toy.moon tt
                   Faulty.st0 (1 # 2) Toy.start eq_refl _) _ _ eq_refl eq_refl).
  reflexivity.
Defined.

Lemma failed_pass_prints_fallback_witness :
  out (snd (satellite_pass (E:=Toy.lib) tt Toy.iss Toy.st0)) =
  [always_below "ISS"].
Proof.
  rewrite (failed_pass_prints_fallback (E:=Toy.lib) tt Toy.iss Toy.st0
             _ _ "ISS" _ eq_refl eq_refl).
  reflexivity.
Defined.

(** With the faulty library the pass is predicted and its times cannot
    be formatted. *)
Lemma half_printed_pass_gets_fallback_witness :
  out (snd (satellite_pass (E:=Faulty.lib) tt Toy.hubble Faulty.st0)) =
  [pass_title "HST"; pass_columns; pass_rule; always_below "HST"].
Proof.
  destruct (half_printed_pass_gets_fallback (E:=Faulty.lib) tt Toy.hubble
              Faulty.st0 _ _ "HST" _ _ _ "HST" _
              eq_refl eq_refl eq_refl eq_refl) as (st' & Hr & Ho).
  rewrite Hr. exact Ho.
Defined.

Lemma satellite_pass_contains_errors_witness :
  fst (satellite_pass (E:=Toy.lib) tt Toy.iss Toy.st0) = Ok tt \/
  exists e w w',
    fst (satellite_pass (E:=Toy.lib) tt Toy.iss Toy.st0) = Raise e /\
    body_name (Ephem:=Toy.lib) Toy.iss w = (inl e, w').
Proof.
  exact (satellite_pass_contains_errors (E:=Toy.lib) tt Toy.iss Toy.st0
           _ _ eq_refl).
Defined.

(** The hidden satellite's name is not even a string. *)
Lemma hidden_satellite_is_skipped_witness :
  satellite_entry (E:=Toy.lib) tt Toy.hidden_satellite Toy.st0 =
  (Ok tt, Toy.st0).
Proof.
  exact (proj1 (hidden_satellite_is_skipped (E:=Toy.lib) tt
                  Toy.hidden_satellite (JBool false) eq_refl eq_refl) Toy.st0).
Defined.

(** One comet row, then an empty object: no closing rule. *)
Lemma comet_table_ends_at_incomplete_item_witness :
  exists row,
    out (snd (comet_report (E:=Toy.lib)
                (JObj [("comets", JArr [Toy.shown_comet; JObj [];
                                        Toy.shown_comet])])
                tt Toy.st0)) = [comet_header; table_rule; row].
Proof.
  eexists.
  change [Toy.shown_comet; JObj []; Toy.shown_comet]
    with ([Toy.shown_comet] ++ JObj [] :: [Toy.shown_comet]).
  erewrite (comet_table_ends_at_incomplete_item (E:=Toy.lib) tt
              [Toy.shown_comet] (JObj []) [Toy.shown_comet] [] Toy.st0);
    cycle 1.
  - left. exists "display". reflexivity.
  - reflexivity.
  - reflexivity.
Defined.

Lemma hidden_row_is_aligned_witness :
  String.length
    (hidden_row "Sun"
       (fmt_datetime (Toy.clock_of (1 # 4)))
       (fmt_datetime (Toy.clock_of (1 # 2)))) = 98%nat.
Proof.
  destruct (hidden_row_is_aligned "Sun" (Toy.clock_of (1 # 4))
              (Toy.clock_of (1 # 2))) as (_ & _ & _ & H & _).
  - vm_compute. intuition discriminate.
  - vm_compute. intuition discriminate.
  - rewrite H. reflexivity.
Defined.

Lemma fmt_angle_fields_in_range_witness :
  String.length (fmt_angle (deg2rad (359 + (599 # 600)))) = 6%nat.
Proof.
  apply (fmt_angle_fields_in_range (deg2rad (359 + (599 # 600))));
    vm_compute; reflexivity || discriminate.
Defined.


Lemma completed_scan_shape_witness :
  exists lines,
    out (snd (conjunction_scan (E:=Toy.lib) Toy.trio Toy.st0)) =
    close_header :: lines /\ length lines = 1%nat.
Proof.
  destruct (completed_scan_shape (E:=Toy.lib) Toy.trio Toy.st0 1
              (snd (conjunction_scan (E:=Toy.lib) Toy.trio Toy.st0)) eq_refl)
    as (lines & Hn & _ & _ & Ho).
  exists lines. assert (L : length lines = 1%nat) by lia.
  destruct lines as [| l rest]; [discriminate L |].
  split; [exact Ho | exact L].
Defined.

(** A [cities] value that is an object, not a list. *)
Lemma cities_of_wrong_shape_raise_witness :
  exists msg,
    load_cities (E:=Toy.lib) (JObj [("cities", Toy.ys)]) Toy.st0 =
    (Raise (OtherError "TypeError" msg), Toy.st0).
Proof.
  apply (cities_of_wrong_shape_raise (E:=Toy.lib)
           (JObj [("cities", Toy.ys)]) Toy.ys Toy.st0 eq_refl).
  right. reflexivity.
Defined.

End Examples.
